(** * Book management service (FastAPI + SQLAlchemy): CRUD handlers of [main.py]

    The five request handlers of [main.py] ([get_book], [get_books],
    [create_book], [delete_book], [update_book]) are embedded as programs of
    a small state-and-exception monad over an SQLAlchemy-like session.  The
    [books] table is a finite map from the integer primary key to the three
    remaining columns; ORM instances live in a per-request heap and are
    referred to by their index, so that [setattr] on an instance and the later
    [commit] see the same object, as in Python.

    Scope of the model.  Python integers are unbounded; the keys the
    table can hold and the integers a statement can bind are those of 64
    bits ([in_int64]).  A request body gives each
    key of [Book] either not at all, as [null], or with a value of the
    declared type; bodies with values of another type are not represented.
    The database engine and the ORM are external to [main.py]: they are
    modelled as far as the handlers use them (one query per request, at
    most one instance flushed per commit). *)

From Stdlib Require Import ZArith.
From stdpp Require Import base option list sorting gmap strings.

Local Open Scope string_scope.

(** ** Python values *)

(** The values the handlers manipulate: [None], integers and strings. *)
Inductive value : Type :=
  | VNone
  | VInt (n : Z)
  | VStr (s : string).

Global Instance value_eq_dec : EqDecision value.
Proof. solve_decision. Defined.

(** [value is not None] *)
Definition is_not_None (v : value) : bool :=
  match v with
  | VNone => false
  | _ => true
  end.

(** [value != w]; values of different types are unequal, as in Python. *)
Definition py_ne (v w : value) : bool := bool_decide (v ≠ w).

Definition of_int (o : option Z) : value :=
  match o with
  | Some n => VInt n
  | None => VNone
  end.

Definition of_str (o : option string) : value :=
  match o with
  | Some s => VStr s
  | None => VNone
  end.

(** ** The ORM class [BookORM] and the table [books] *)

(** An instance of [BookORM]: four attributes, dynamically typed as in
    Python.  A fresh instance has [id = None] until it is inserted. *)
Module BookORM.
Record t : Type := mk {
  id : value;
  title : value;
  author : value;
  description : value
}.

(** [setattr(obj, key, value)] for the mapped attributes.  Any other key
    would only attach an unmapped Python attribute, which no column sees. *)
Definition setattr (o : t) (key : string) (v : value) : t :=
  if decide (key = "id") then mk v (title o) (author o) (description o)
  else if decide (key = "title") then mk (id o) v (author o) (description o)
  else if decide (key = "author") then mk (id o) (title o) v (description o)
  else if decide (key = "description") then mk (id o) (title o) (author o) v
  else o.

(** [getattr(obj, key)] for the mapped attributes. *)
Definition getattr (o : t) (key : string) : value :=
  if decide (key = "id") then id o
  else if decide (key = "title") then title o
  else if decide (key = "author") then author o
  else if decide (key = "description") then description o
  else VNone.
End BookORM.

Global Instance BookORM_eq_dec : EqDecision BookORM.t.
Proof. solve_decision. Defined.

(** A row of [books] without its primary key: the columns [title], [author]
    and [description].  The table maps the primary key [id] to the row. *)
Record row : Type := mkrow {
  col_title : value;
  col_author : value;
  col_description : value
}.

Global Instance row_eq_dec : EqDecision row.
Proof. solve_decision. Defined.

Abbreviation table := (gmap Z row).

Definition columns (o : BookORM.t) : row :=
  mkrow (BookORM.title o) (BookORM.author o) (BookORM.description o).

(** The instance loaded from the row stored under key [k]. *)
Definition load (k : Z) (r : row) : BookORM.t :=
  BookORM.mk (VInt k) (col_title r) (col_author r) (col_description r).

(** Primary keys in ascending order (the order of a full scan). *)
Definition rowids (t : table) : list Z :=
  merge_sort Z.le (map fst (map_to_list t)).

(** The integers of 64 bits: the keys a row can have, and the integers the
    driver accepts as the parameter of a statement. *)
Definition MIN_ROWID : Z := (-9223372036854775808)%Z.

Definition MAX_ROWID : Z := 9223372036854775807%Z.

Definition in_int64 (k : Z) : bool := ((MIN_ROWID <=? k) && (k <=? MAX_ROWID))%Z.

(** The largest key in use, if any. *)
Definition largest_rowid (t : table) : option Z :=
  match map fst (map_to_list t) with
  | [] => None
  | k :: ks => Some (foldr Z.max k ks)
  end.

(** When the largest key in use is the largest key there is, the engine
    draws positive keys at random until it meets one that is not in use.
    The draw is no part of the program's state; the model fixes one outcome
    it can have, the least positive key not in use.  The properties below
    rely only on the key not being in use. *)
Definition random_rowid (t : table) : Z :=
  default 1%Z
    (head (filter (λ k, t !! k = None) (seqZ 1 (Z.of_nat (S (size t)))))).

(** The key the storage engine gives to a row inserted without one (an
    [INTEGER PRIMARY KEY] column of SQLite): 1 for an empty table, one more
    than the largest key in use while that is below [MAX_ROWID], and a
    randomly drawn unused key otherwise. *)
Definition next_rowid (t : table) : Z :=
  match largest_rowid t with
  | None => 1%Z
  | Some m => if decide (m < MAX_ROWID)%Z then (m + 1)%Z else random_rowid t
  end.

(** ** The Pydantic model [Book] *)

Module Book.
(** A validated [Book]: [title] and [author] are strings, [id] and
    [description] are optional; [model_fields_set] names the fields that
    were explicitly supplied when the model was built. *)
Record t : Type := mk {
  id : option Z;
  title : string;
  author : string;
  description : option string;
  model_fields_set : list string
}.

Definition all_fields : list string := ["id"; "title"; "author"; "description"].

(** [book.model_dump(exclude_unset=True).items()]: the supplied fields, in
    declaration order. *)
Definition model_dump_exclude_unset (b : t) : list (string * value) :=
  filter (λ kv, kv.1 ∈ model_fields_set b)
    [("id", of_int (id b)); ("title", VStr (title b));
     ("author", VStr (author b)); ("description", of_str (description b))].

(** [Book.model_validate(obj)] with [from_attributes = True], as applied
    to the value an endpoint with [response_model=Book] returns.  [None]
    stands for a validation failure. *)
Definition from_attributes (o : BookORM.t) : option t :=
  match BookORM.id o, BookORM.title o, BookORM.author o, BookORM.description o with
  | VInt n, VStr ti, VStr au, VStr d => Some (mk (Some n) ti au (Some d) all_fields)
  | VInt n, VStr ti, VStr au, VNone => Some (mk (Some n) ti au None all_fields)
  | VNone, VStr ti, VStr au, VStr d => Some (mk None ti au (Some d) all_fields)
  | VNone, VStr ti, VStr au, VNone => Some (mk None ti au None all_fields)
  | _, _, _, _ => None
  end.
End Book.

Global Instance Book_eq_dec : EqDecision Book.t.
Proof. solve_decision. Defined.

(** ** Request bodies and their validation *)

(** How a request body treats one key: left out, sent as [null], or sent
    with a value of the declared type. *)
Inductive supplied (A : Type) : Type :=
  | Absent
  | Null
  | Given (a : A).
Global Arguments Absent {A}.
Global Arguments Null {A}.
Global Arguments Given {A} a.

Definition is_present {A} (x : supplied A) : bool :=
  match x with
  | Absent => false
  | _ => true
  end.

Definition to_option {A} (x : supplied A) : option A :=
  match x with
  | Given a => Some a
  | _ => None
  end.

Module Body.
(** The JSON object of a POST or PUT request, restricted to the keys of
    [Book] (other keys are ignored by the framework). *)
Record t : Type := mk {
  id : supplied Z;
  title : supplied string;
  author : supplied string;
  description : supplied string
}.
End Body.

(** Validation of a body against the declaration of [Book]: [title: str] and
    [author: str] are required and not nullable, [id: Optional[int] = None]
    and [description: Optional[str] = None] may be left out or null.  [None]
    is a rejected body. *)
Definition validate (b : Body.t) : option Book.t :=
  match Body.title b, Body.author b with
  | Given ti, Given au =>
      Some (Book.mk (to_option (Body.id b)) ti au (to_option (Body.description b))
              ((if is_present (Body.id b) then ["id"] else [])
               ++ ["title"; "author"]
               ++ (if is_present (Body.description b) then ["description"] else [])))
  | _, _ => None
  end.

(** ** Sessions *)

(** Where an instance stands with respect to the session: built but not
    added, added and waiting for its INSERT, backed by the row with the
    given key, marked for removal of that row, or no longer backed by a
    row. *)
Inductive obj_state : Type :=
  | Transient
  | Pending
  | Persistent (key : Z)
  | Deleted (key : Z)
  | Detached.

Record instance : Type := mkinst {
  state : obj_state;
  attrs : BookORM.t
}.

(** A session bound to the engine: the committed contents of [books], and
    the instances created or loaded during the request.  A handler holds an
    instance through its index in [objects]. *)
Record Session : Type := mksession {
  engine : table;
  objects : list instance
}.

(** What a handler may raise. *)
Inductive exn : Type :=
  | HTTPException (status_code : nat) (detail : string)
  | OverflowError
  | IntegrityError
  | StaleDataError
  | InvalidRequestError.

(** Handlers thread the session and may raise. *)
Definition M (A : Type) : Type := Session → (exn + A) * Session.

Global Instance M_ret : MRet M := λ A a db, (inr a, db).

Global Instance M_bind : MBind M := λ A B f m db,
  match m db with
  | (inr a, db') => f a db'
  | (inl e, db') => (inl e, db')
  end.

Definition raise {A} (e : exn) : M A := λ db, (inl e, db).

(** [for x in l: body(x)] *)
Fixpoint for_each {A} (l : list A) (body : A → M unit) : M unit :=
  match l with
  | [] => mret ()
  | x :: l' => body x ;; for_each l' body
  end.

(** Allocation of a Python object; the result is its reference. *)
Definition alloc (i : instance) : M nat := λ db,
  (inr (length (objects db)), mksession (engine db) (objects db ++ [i])).

(** [BookORM(title=..., author=..., description=...)] *)
Definition new_BookORM (title author description : value) : M nat :=
  alloc (mkinst Transient (BookORM.mk VNone title author description)).

(** [db.query(BookORM).filter(BookORM.id == book_id).first()]: the instance
    for the row with that key, or [None].  Every handler queries before it
    changes anything, so the query reads the committed table and the
    instance is new to the session.  The value of [book_id] is bound as a
    parameter of the SELECT: an integer outside 64 bits cannot be bound and
    the driver raises [OverflowError].  Such an integer is the key of no
    row ([serve_keys_in_int64]), so it is in the branch without a row that
    the error arises. *)
Definition query_filter_id_first (book_id : Z) : M (option nat) := λ db,
  match engine db !! book_id with
  | Some r =>
      (inr (Some (length (objects db))),
       mksession (engine db) (objects db ++ [mkinst (Persistent book_id) (load book_id r)]))
  | None =>
      if in_int64 book_id then (inr None, db) else (inl OverflowError, db)
  end.

(** [db.query(BookORM).all()]: one instance per row, in key order. *)
Definition query_all : M (list nat) := λ db,
  let loaded :=
    omap (λ k, mkinst (Persistent k) ∘ load k <$> engine db !! k) (rowids (engine db)) in
  (inr (seq (length (objects db)) (length loaded)),
   mksession (engine db) (objects db ++ loaded)).

(** [db.add(obj)] *)
Definition add (ref : nat) : M unit := λ db,
  match objects db !! ref with
  | Some (mkinst Transient a) =>
      (inr (), mksession (engine db) (<[ref := mkinst Pending a]> (objects db)))
  | Some (mkinst Detached a) =>
      (inr (), mksession (engine db) (<[ref := mkinst Pending a]> (objects db)))
  | Some _ => (inr (), db)
  | None => (inl InvalidRequestError, db)
  end.

(** [db.delete(obj)] *)
Definition delete_ (ref : nat) : M unit := λ db,
  match objects db !! ref with
  | Some (mkinst (Persistent k) a) =>
      (inr (), mksession (engine db) (<[ref := mkinst (Deleted k) a]> (objects db)))
  | Some (mkinst (Deleted k) a) => (inr (), db)
  | _ => (inl InvalidRequestError, db)
  end.

(** [setattr(obj, key, value)] on an instance of the session. *)
Definition setattr (ref : nat) (key : string) (v : value) : M unit := λ db,
  match objects db !! ref with
  | Some (mkinst st a) =>
      (inr (),
       mksession (engine db) (<[ref := mkinst st (BookORM.setattr a key v)]> (objects db)))
  | None => (inl InvalidRequestError, db)
  end.

(** The statement one instance contributes to a flush, run against the
    working copy [t] of the table: INSERT for a pending instance, UPDATE
    (which may move the row to a new primary key) for a persistent one,
    DELETE for one marked so.  A new primary key outside 64 bits cannot be
    bound ([OverflowError]); one already in use, a null or an ill-typed one
    is refused by the table; an UPDATE that finds no row is stale. *)
Definition flush_one (t : table) (i : instance) : exn + (table * instance) :=
  match state i with
  | Transient | Detached => inr (t, i)
  | Pending =>
      match BookORM.id (attrs i) with
      | VNone =>
          let k := next_rowid t in
          inr (<[k := columns (attrs i)]> t,
               mkinst (Persistent k) (BookORM.setattr (attrs i) "id" (VInt k)))
      | VInt k =>
          if in_int64 k then
            match t !! k with
            | Some _ => inl IntegrityError
            | None => inr (<[k := columns (attrs i)]> t, mkinst (Persistent k) (attrs i))
            end
          else inl OverflowError
      | VStr _ => inl IntegrityError
      end
  | Persistent k =>
      match t !! k with
      | None => inl StaleDataError
      | Some _ =>
          match BookORM.id (attrs i) with
          | VInt k' =>
              if decide (k' = k) then inr (<[k := columns (attrs i)]> t, i)
              else if in_int64 k' then
                match t !! k' with
                | Some _ => inl IntegrityError
                | None =>
                    inr (<[k' := columns (attrs i)]> (delete k t),
                         mkinst (Persistent k') (attrs i))
                end
              else inl OverflowError
          | _ => inl IntegrityError
          end
      end
  | Deleted k => inr (delete k t, mkinst Detached (attrs i))
  end.

Fixpoint flush (t : table) (l : list instance) : exn + (table * list instance) :=
  match l with
  | [] => inr (t, [])
  | i :: l' =>
      match flush_one t i with
      | inl e => inl e
      | inr (t', i') =>
          match flush t' l' with
          | inl e => inl e
          | inr (t'', l'') => inr (t'', i' :: l'')
          end
      end
  end.

(** [db.commit()]: flush every instance and make the outcome the committed
    table; when a statement fails the exception is raised and nothing of
    the transaction becomes visible. *)
Definition commit : M unit := λ db,
  match flush (engine db) (objects db) with
  | inr (t, l) => (inr (), mksession t l)
  | inl e => (inl e, db)
  end.

(** [db.refresh(obj)]: reload the attributes from the instance's row. *)
Definition refresh (ref : nat) : M unit := λ db,
  match objects db !! ref with
  | Some (mkinst (Persistent k) a) =>
      match engine db !! k with
      | Some r =>
          (inr (),
           mksession (engine db) (<[ref := mkinst (Persistent k) (load k r)]> (objects db)))
      | None => (inl InvalidRequestError, db)
      end
  | _ => (inl InvalidRequestError, db)
  end.

(** [Session(bind=engine)] at the start of a request, and what is left of
    the session for the next request after [db.close()]: the committed
    table ([get_db]). *)
Definition Session_bind (t : table) : Session := mksession t [].

Definition close (db : Session) : table := engine db.

(** ** The handlers of [main.py] *)

Definition not_found : exn := HTTPException 404 "Book not found".

(** [get_book(book_id, db)] *)
Definition get_book (book_id : Z) : M nat :=
  book ← query_filter_id_first book_id;
  match book with
  | None => raise not_found
  | Some book => mret book
  end.

(** [get_books(db)] *)
Definition get_books : M (list nat) :=
  books ← query_all;
  mret books.

(** [create_book(book, db)] *)
Definition create_book (book : Book.t) : M nat :=
  db_book ← new_BookORM (VStr (Book.title book)) (VStr (Book.author book))
              (of_str (Book.description book));
  add db_book ;;
  commit ;;
  refresh db_book ;;
  mret db_book.

(** [delete_book(book_id, db)]; falls off the end, returning [None]. *)
Definition delete_book (book_id : Z) : M unit :=
  book ← query_filter_id_first book_id;
  match book with
  | None => raise not_found
  | Some book =>
      delete_ book ;;
      commit
  end.

(** [update_book(book, book_id, db)]; falls off the end, returning [None]. *)
Definition update_book (book : Book.t) (book_id : Z) : M unit :=
  book_upd ← query_filter_id_first book_id;
  match book_upd with
  | None => raise not_found
  | Some book_upd =>
      for_each (Book.model_dump_exclude_unset book) (λ '(key, value),
        if is_not_None value && py_ne value (VStr "")
        then setattr book_upd key value
        else mret ()) ;;
      commit ;;
      refresh book_upd
  end.

(** ** Routes: from a request and the table to a response and the table *)

Inductive content : Type :=
  | JBook (b : Book.t)
  | JBooks (bs : list Book.t)
  | JNull
  | JDetail (detail : string)
  | JValidationError
  | InternalServerError.

Record response : Type := mkresp {
  status_code : nat;
  body : content
}.

(** Serialisation of what an endpoint returned.  With [response_model=Book]
    (or a list of it) the returned instances are validated against [Book];
    without a response model the returned [None] is sent as [null]. *)
Definition as_Book (objs : list instance) (ref : nat) : option content :=
  i ← objs !! ref;
  JBook <$> Book.from_attributes (attrs i).

Definition as_Books (objs : list instance) (refs : list nat) : option content :=
  JBooks <$> mapM (λ ref, i ← objs !! ref; Book.from_attributes (attrs i)) refs.

Definition as_None (objs : list instance) (r : unit) : option content := Some JNull.

(** One request: a session is opened on the table, the endpoint runs, its
    result or exception becomes the response, and the session is closed
    ([get_db]).  An [HTTPException] carries its own status and detail; any
    other exception, and a returned value that fails the response model,
    is a server error. *)
Definition respond {A} (serialize : list instance → A → option content)
    (endpoint : M A) (t : table) : response * table :=
  match endpoint (Session_bind t) with
  | (inr a, db) =>
      (match serialize (objects db) a with
       | Some c => mkresp 200 c
       | None => mkresp 500 InternalServerError
       end, close db)
  | (inl (HTTPException code detail), db) => (mkresp code (JDetail detail), close db)
  | (inl _, db) => (mkresp 500 InternalServerError, close db)
  end.

(** A body that fails validation is answered with 422 before the endpoint
    is called. *)
Definition with_body (b : Body.t) (route : Book.t → table → response * table)
    (t : table) : response * table :=
  match validate b with
  | Some book => route book t
  | None => (mkresp 422 JValidationError, t)
  end.

(** [@app.get("/books/{book_id}", response_model=Book)] *)
Definition GET_book (book_id : Z) : table → response * table :=
  respond as_Book (get_book book_id).

(** [@app.get("/books", response_model=List[Book])] *)
Definition GET_books : table → response * table :=
  respond as_Books get_books.

(** [@app.post("/books", response_model=Book)] *)
Definition POST_book (book : Book.t) : table → response * table :=
  respond as_Book (create_book book).

Definition POST_books (b : Body.t) : table → response * table :=
  with_body b POST_book.

(** [@app.delete("/books/{book_id}")] *)
Definition DELETE_book (book_id : Z) : table → response * table :=
  respond as_None (delete_book book_id).

(** [@app.put("/books/{book_id}")] *)
Definition PUT_book (book : Book.t) (book_id : Z) : table → response * table :=
  respond as_None (update_book book book_id).

Definition PUT_books (b : Body.t) (book_id : Z) : table → response * table :=
  with_body b (λ book, PUT_book book book_id).

(** ** Sequences of requests *)

Inductive request : Type :=
  | Get (book_id : Z)
  | GetAll
  | Post (b : Body.t)
  | Delete (book_id : Z)
  | Put (b : Body.t) (book_id : Z).

Definition serve (q : request) : table → response * table :=
  match q with
  | Get book_id => GET_book book_id
  | GetAll => GET_books
  | Post b => POST_books b
  | Delete book_id => DELETE_book book_id
  | Put b book_id => PUT_books b book_id
  end.

(** The requests are served one after the other, each on the table the
    previous one left. *)
Fixpoint serve_all (qs : list request) (t : table) : list response * table :=
  match qs with
  | [] => ([], t)
  | q :: qs' =>
      let '(resp, t') := serve q t in
      let '(resps, t'') := serve_all qs' t' in
      (resp :: resps, t'')
  end.

(** The id a request was answered with for a book it created. *)
Definition created_id (q : request) (resp : response) : option Z :=
  match q, body resp with
  | Post _, JBook book => Book.id book
  | _, _ => None
  end.

Definition created_ids (qs : list request) (resps : list response) : list Z :=
  omap (λ qr, created_id qr.1 qr.2) (zip qs resps).

(** Whether a request is an update whose body carries an [id]. *)
Definition carries_id (q : request) : bool :=
  match q with
  | Put b _ => bool_decide (is_Some (to_option (Body.id b)))
  | _ => false
  end.

(** ** The update loop on the attributes of one instance *)

(** One iteration of the loop of [update_book], as it acts on the
    attributes of the instance being updated. *)
Definition assign (a : BookORM.t) (kv : string * value) : BookORM.t :=
  if is_not_None kv.2 && py_ne kv.2 (VStr "") then BookORM.setattr a kv.1 kv.2 else a.

(** The attributes after the whole loop. *)
Definition updated (book : Book.t) (a : BookORM.t) : BookORM.t :=
  foldl assign a (Book.model_dump_exclude_unset book).

(** A body in which every key sent as [null] is left out instead. *)
Definition drop_null {A} (x : supplied A) : supplied A :=
  match x with
  | Null => Absent
  | _ => x
  end.

Definition without_nulls (b : Body.t) : Body.t :=
  Body.mk (drop_null (Body.id b)) (drop_null (Body.title b))
    (drop_null (Body.author b)) (drop_null (Body.description b)).

(** The rows of the table as a full scan meets them. *)
Definition scan (t : table) : list (Z * row) :=
  omap (λ k, pair k <$> t !! k) (rowids t).

(** ** Keys the table can hold *)

(** Every key of the table is an integer of 64 bits. *)
Definition keys_in_int64 (t : table) : Prop :=
  map_Forall (λ k _, in_int64 k = true) t.

(** ** Rows the response model accepts *)

(** A row whose columns fit the declaration of [Book]: [title] and
    [author] hold strings, [description] a string or NULL.  The columns of
    [BookORM] are nullable, so the table itself does not enforce this. *)
Definition well_formed_row (r : row) : bool :=
  match col_title r, col_author r, col_description r with
  | VStr _, VStr _, VStr _ => true
  | VStr _, VStr _, VNone => true
  | _, _, _ => false
  end.

Definition well_formed (t : table) : Prop :=
  map_Forall (λ _ r, well_formed_row r = true) t.

(** ** Sample data *)

Definition shelf : table := {[ 1%Z := mkrow (VStr "T") (VStr "A") (VStr "D") ]}.

Definition two_books : table :=
  <[ 2%Z := mkrow (VStr "U") (VStr "B") VNone ]> shelf.

Definition only_description : Body.t := Body.mk Absent Absent Absent (Given "new").

Definition description_with_blanks : Body.t :=
  Body.mk Absent (Given "") (Given "") (Given "new").

Definition retitle : Body.t := Body.mk Absent (Given "New") (Given "") Absent.

Definition renumber : Body.t := Body.mk (Given 7%Z) (Given "") (Given "") Absent.

Definition blank : Body.t := Body.mk Absent (Given "") (Given "") Absent.

Definition A_by_B : Body.t := Body.mk Absent (Given "A") (Given "B") Absent.

Definition null_description : Body.t := Body.mk Absent (Given "") (Given "") Null.

Definition retitled : Book.t := Book.mk None "New" "" None ["title"; "author"].

Definition shelf_row : row := mkrow (VStr "T") (VStr "A") (VStr "D").

Definition rewrite_all : Body.t := Body.mk Absent (Given "T2") (Given "A2") (Given "D2").

Definition renumber_to_2 : Body.t := Body.mk (Given 2%Z) (Given "X") (Given "") Absent.

Definition too_large : Z := 9223372036854775808%Z.

Definition renumber_too_large : Body.t :=
  Body.mk (Given too_large) (Given "") (Given "") Absent.

(** * Properties *)

(** ** The storage engine's key allocation *)

Lemma foldr_max_ge (k : Z) (ks : list Z) (x : Z) :
  x ∈ k :: ks → (x ≤ foldr Z.max k ks)%Z.
Proof.
  induction ks as [|y ks IH]; simpl.
  - intros ->%list_elem_of_singleton. lia.
  - rewrite !elem_of_cons. intros [->|[->|Hx]].
    + assert (k ≤ foldr Z.max k ks)%Z by (apply IH; left). lia.
    + lia.
    + assert (x ≤ foldr Z.max k ks)%Z by (apply IH; by right). lia.
Qed.

Lemma largest_rowid_ge (t : table) (m k : Z) :
  largest_rowid t = Some m → is_Some (t !! k) → (k ≤ m)%Z.
Proof.
  unfold largest_rowid. intros Hm [r Hr]. apply elem_of_map_to_list in Hr.
  assert (Hin : k ∈ map fst (map_to_list t)).
  { apply list_elem_of_fmap. by exists (k, r). }
  destruct (map fst (map_to_list t)) as [|k0 ks]; [done|].
  injection Hm as <-. by apply foldr_max_ge.
Qed.

Lemma largest_rowid_None (t : table) (k : Z) :
  largest_rowid t = None → t !! k = None.
Proof.
  unfold largest_rowid. intros Hm.
  destruct (t !! k) as [r|] eqn:Hr; [|done].
  apply elem_of_map_to_list in Hr.
  assert (Hin : k ∈ map fst (map_to_list t)).
  { apply list_elem_of_fmap. by exists (k, r). }
  destruct (map fst (map_to_list t)); [|done]. by apply elem_of_nil in Hin.
Qed.

(** Among one more candidates than the table has rows, one is not in use. *)
Lemma random_rowid_fresh (t : table) : t !! random_rowid t = None.
Proof.
  unfold random_rowid.
  destruct (filter (λ k, t !! k = None) (seqZ 1 (Z.of_nat (S (size t)))))
    as [|k ks] eqn:Hf; simpl.
  - exfalso.
    assert (Hsub : list_to_set (seqZ 1 (Z.of_nat (S (size t)))) ⊆ dom t).
    { intros k Hk. apply elem_of_list_to_set in Hk. apply elem_of_dom.
      destruct (t !! k) as [r|] eqn:Hr; [by eexists|].
      by destruct (filter_nil_not_elem_of _ _ k Hf Hr). }
    apply subseteq_size in Hsub.
    rewrite size_list_to_set, length_seqZ, size_dom in Hsub by apply NoDup_seqZ.
    lia.
  - assert (Hk : k ∈ filter (λ k, t !! k = None) (seqZ 1 (Z.of_nat (S (size t)))))
      by (rewrite Hf; left).
    by apply list_elem_of_filter in Hk as [Hk _].
Qed.

(** The allocated key is not in use. *)
Lemma next_rowid_fresh (t : table) : t !! next_rowid t = None.
Proof.
  unfold next_rowid. destruct (largest_rowid t) as [m|] eqn:Hm.
  - destruct (decide (m < MAX_ROWID)%Z); [|apply random_rowid_fresh].
    destruct (t !! (m + 1)%Z) as [r|] eqn:Hr; [|done].
    assert (m + 1 ≤ m)%Z by (apply (largest_rowid_ge t); [done|by eexists]). lia.
  - by apply largest_rowid_None.
Qed.

(** On a table whose largest key is below [MAX_ROWID] the allocated key is
    the next one; on the empty table it is 1. *)
Lemma next_rowid_below_max (t : table) (m : Z) :
  largest_rowid t = Some m → (m < MAX_ROWID)%Z → next_rowid t = (m + 1)%Z.
Proof. unfold next_rowid. intros -> ?. by destruct (decide _). Qed.

Lemma next_rowid_empty : next_rowid ∅ = 1%Z.
Proof. reflexivity. Qed.

(** ** Attributes *)

Lemma getattr_setattr (a : BookORM.t) (k key : string) (v : value) :
  BookORM.getattr (BookORM.setattr a k v) key =
    if decide (key = k ∧ k ∈ Book.all_fields) then v else BookORM.getattr a key.
Proof.
  unfold BookORM.getattr, BookORM.setattr, Book.all_fields.
  destruct (decide (key = k ∧ _)) as [[-> Hk]|Hn].
  - repeat (destruct (decide _) as [->|?]; simpl; try done).
    rewrite !elem_of_cons, elem_of_nil in Hk. tauto.
  - repeat (destruct (decide _) as [->|?]; simpl; try done);
      exfalso; apply Hn; (split; [done | rewrite !elem_of_cons; tauto]).
Qed.

(** ** The dumped payload *)

(** What [model_dump(exclude_unset=True)] holds: a supplied field with the
    value the model has for it. *)
Lemma elem_of_model_dump (book : Book.t) (key : string) (v : value) :
  (key, v) ∈ Book.model_dump_exclude_unset book ↔
    key ∈ Book.model_fields_set book ∧
    ((key = "id" ∧ v = of_int (Book.id book)) ∨
     (key = "title" ∧ v = VStr (Book.title book)) ∨
     (key = "author" ∧ v = VStr (Book.author book)) ∨
     (key = "description" ∧ v = of_str (Book.description book))).
Proof.
  unfold Book.model_dump_exclude_unset.
  rewrite list_elem_of_filter, !elem_of_cons, elem_of_nil. simpl.
  split.
  - intros [Hin H]. split; [done|].
    destruct H as [H|[H|[H|[H|[]]]]]; injection H as -> ->; tauto.
  - intros [Hin H]. split; [done|].
    destruct H as [[-> ->]|[[-> ->]|[[-> ->]|[-> ->]]]]; tauto.
Qed.

(** A key occurs at most once in the dump. *)
Lemma model_dump_functional (book : Book.t) (key : string) (v w : value) :
  (key, v) ∈ Book.model_dump_exclude_unset book →
  (key, w) ∈ Book.model_dump_exclude_unset book →
  v = w.
Proof.
  rewrite !elem_of_model_dump. intros [_ Hv] [_ Hw].
  destruct Hv as [[-> ->]|[[-> ->]|[[-> ->]|[-> ->]]]];
    destruct Hw as [[? ->]|[[? ->]|[[? ->]|[? ->]]]]; done.
Qed.

(** ** The update loop *)

(** After any run of loop iterations an attribute either has its old value
    or the value of an item that passed the test of the loop. *)
Lemma foldl_assign_getattr (items : list (string * value)) (a : BookORM.t) (key : string) :
  BookORM.getattr (foldl assign a items) key = BookORM.getattr a key ∨
  ∃ v, (key, v) ∈ items ∧ v ≠ VNone ∧ v ≠ VStr "" ∧
       BookORM.getattr (foldl assign a items) key = v.
Proof.
  induction items as [|[k v] items IH] using rev_ind; simpl; [by left|].
  rewrite foldl_app. simpl. unfold assign at 1 3. simpl.
  destruct (is_not_None v && py_ne v (VStr "")) eqn:Hc.
  - rewrite getattr_setattr.
    destruct (decide (key = k ∧ _)) as [[-> _]|_].
    + right. exists v. apply andb_prop in Hc as [Hn He].
      split; [apply elem_of_app; right; by left|].
      split; [by destruct v|].
      split; [|done].
      unfold py_ne in He. by apply bool_decide_eq_true in He.
    + destruct IH as [IH|(w & Hw & ? & ? & ?)]; [by left|].
      right. exists w. split; [apply elem_of_app; by left|done].
  - destruct IH as [IH|(w & Hw & ? & ? & ?)]; [by left|].
    right. exists w. split; [apply elem_of_app; by left|done].
Qed.

(** The loop never takes the primary key attribute away. *)
Lemma updated_id (book : Book.t) (k : Z) (r : row) :
  ∃ k', BookORM.id (updated book (load k r)) = VInt k'.
Proof.
  destruct (foldl_assign_getattr (Book.model_dump_exclude_unset book) (load k r) "id")
    as [H|(v & Hv & Hn & _ & H)]; fold (updated book (load k r)) in H.
  - exists k. apply H.
  - apply elem_of_model_dump in Hv as [_ Hv].
    destruct Hv as [[_ ->]|[[? _]|[[? _]|[? _]]]]; try done.
    destruct (Book.id book) as [n|]; [|done].
    exists n. apply H.
Qed.

(** The loop of [update_book], run in a session that holds the instance
    under reference 0. *)
Lemma for_each_assign (items : list (string * value)) (t : table) (st : obj_state)
    (a : BookORM.t) :
  for_each items (λ '(key, value),
      if is_not_None value && py_ne value (VStr "")
      then setattr 0 key value
      else mret ()) (mksession t [mkinst st a])
  = (inr (), mksession t [mkinst st (foldl assign a items)]).
Proof.
  revert a. induction items as [|[k v] items IH]; intros a; simpl; [done|].
  unfold mbind, M_bind. unfold assign at 2. simpl.
  destruct (is_not_None v && py_ne v (VStr "")); simpl; apply IH.
Qed.

(** ** What each route computes *)

Lemma GET_book_found (t : table) (book_id : Z) (r : row) :
  t !! book_id = Some r →
  GET_book book_id t =
    (match Book.from_attributes (load book_id r) with
     | Some b => mkresp 200 (JBook b)
     | None => mkresp 500 InternalServerError
     end, t).
Proof.
  intros Hr. unfold GET_book, respond, get_book, Session_bind.
  unfold mbind, M_bind, query_filter_id_first. simpl. rewrite Hr. simpl.
  unfold as_Book. simpl.
  by destruct (Book.from_attributes (load book_id r)).
Qed.

(** A request for an id without a row: 404 for an id of 64 bits, a server
    error for one that cannot be bound. *)
Lemma GET_book_no_row (t : table) (book_id : Z) :
  t !! book_id = None →
  GET_book book_id t =
    (if in_int64 book_id then mkresp 404 (JDetail "Book not found")
     else mkresp 500 InternalServerError, t).
Proof.
  intros Hr. unfold GET_book, respond, get_book, Session_bind.
  unfold mbind, M_bind, query_filter_id_first. simpl. rewrite Hr.
  by destruct (in_int64 book_id).
Qed.

Lemma GET_book_missing (t : table) (book_id : Z) :
  t !! book_id = None →
  in_int64 book_id = true →
  GET_book book_id t = (mkresp 404 (JDetail "Book not found"), t).
Proof. intros Hr Hin. by rewrite GET_book_no_row, Hin. Qed.

Lemma DELETE_book_found (t : table) (book_id : Z) (r : row) :
  t !! book_id = Some r →
  DELETE_book book_id t = (mkresp 200 JNull, delete book_id t).
Proof.
  intros Hr. unfold DELETE_book, respond, delete_book, Session_bind.
  unfold mbind, M_bind, query_filter_id_first. simpl. rewrite Hr. simpl.
  by unfold flush_one.
Qed.

Lemma DELETE_book_no_row (t : table) (book_id : Z) :
  t !! book_id = None →
  DELETE_book book_id t =
    (if in_int64 book_id then mkresp 404 (JDetail "Book not found")
     else mkresp 500 InternalServerError, t).
Proof.
  intros Hr. unfold DELETE_book, respond, delete_book, Session_bind.
  unfold mbind, M_bind, query_filter_id_first. simpl. rewrite Hr.
  by destruct (in_int64 book_id).
Qed.

Lemma DELETE_book_missing (t : table) (book_id : Z) :
  t !! book_id = None →
  in_int64 book_id = true →
  DELETE_book book_id t = (mkresp 404 (JDetail "Book not found"), t).
Proof. intros Hr Hin. by rewrite DELETE_book_no_row, Hin. Qed.

Lemma PUT_book_no_row (t : table) (book : Book.t) (book_id : Z) :
  t !! book_id = None →
  PUT_book book book_id t =
    (if in_int64 book_id then mkresp 404 (JDetail "Book not found")
     else mkresp 500 InternalServerError, t).
Proof.
  intros Hr. unfold PUT_book, respond, update_book, Session_bind.
  unfold mbind, M_bind, query_filter_id_first. simpl. rewrite Hr.
  by destruct (in_int64 book_id).
Qed.

Lemma PUT_book_missing (t : table) (book : Book.t) (book_id : Z) :
  t !! book_id = None →
  in_int64 book_id = true →
  PUT_book book book_id t = (mkresp 404 (JDetail "Book not found"), t).
Proof. intros Hr Hin. by rewrite PUT_book_no_row, Hin. Qed.

(** The outcome of an update of an existing row: the row takes the
    attributes the loop leaves, under the key the loop leaves; when that
    key differs from the row's and cannot be bound or is in use the commit
    fails and the table stays as it was. *)
Lemma PUT_book_found (t : table) (book : Book.t) (book_id : Z) (r : row) :
  t !! book_id = Some r →
  PUT_book book book_id t =
    match BookORM.id (updated book (load book_id r)) with
    | VInt k' =>
        if decide (k' = book_id)
        then (mkresp 200 JNull, <[book_id := columns (updated book (load book_id r))]> t)
        else if in_int64 k' then
          match t !! k' with
          | Some _ => (mkresp 500 InternalServerError, t)
          | None =>
              (mkresp 200 JNull,
               <[k' := columns (updated book (load book_id r))]> (delete book_id t))
          end
        else (mkresp 500 InternalServerError, t)
    | _ => (mkresp 500 InternalServerError, t)
    end.
Proof.
  intros Hr. unfold PUT_book, respond, update_book, Session_bind.
  unfold mbind at 1, M_bind at 1, query_filter_id_first. simpl. rewrite Hr. simpl.
  unfold mbind at 1, M_bind at 1. rewrite for_each_assign.
  fold (updated book (load book_id r)).
  unfold mbind, M_bind, commit, refresh. simpl.
  unfold flush_one. simpl. rewrite Hr.
  destruct (BookORM.id (updated book (load book_id r))) as [|k'|]; simpl; try done.
  destruct (decide (k' = book_id)) as [->|Hne]; simpl.
  - by rewrite lookup_insert_eq.
  - destruct (in_int64 k'); simpl; [|done].
    destruct (t !! k'); simpl; [done|]. by rewrite lookup_insert_eq.
Qed.

Lemma POST_book_run (t : table) (book : Book.t) :
  POST_book book t =
    (mkresp 200
       (JBook (Book.mk (Some (next_rowid t)) (Book.title book) (Book.author book)
                 (Book.description book) Book.all_fields)),
     <[next_rowid t := mkrow (VStr (Book.title book)) (VStr (Book.author book))
                         (of_str (Book.description book))]> t).
Proof.
  unfold POST_book, respond, create_book, Session_bind.
  unfold mbind, M_bind, new_BookORM, alloc, add, commit, refresh. simpl.
  unfold flush_one. simpl. rewrite lookup_insert_eq. simpl. unfold as_Book. simpl.
  by destruct (Book.description book).
Qed.

(** The attributes the loop leaves, field by field: a field is overwritten
    exactly when it was supplied with a value other than [None] and the
    empty string. *)
Lemma updated_eq (book : Book.t) (a : BookORM.t) :
  updated book a =
    BookORM.mk
      (if decide ("id" ∈ Book.model_fields_set book)
       then match Book.id book with Some n => VInt n | None => BookORM.id a end
       else BookORM.id a)
      (if decide ("title" ∈ Book.model_fields_set book ∧ Book.title book ≠ "")
       then VStr (Book.title book) else BookORM.title a)
      (if decide ("author" ∈ Book.model_fields_set book ∧ Book.author book ≠ "")
       then VStr (Book.author book) else BookORM.author a)
      (if decide ("description" ∈ Book.model_fields_set book)
       then match Book.description book with
            | Some d => if decide (d = "") then BookORM.description a else VStr d
            | None => BookORM.description a
            end
       else BookORM.description a).
Proof.
  destruct book as [i ti au d fs], a as [ai at_ aa ad].
  unfold updated, Book.model_dump_exclude_unset. simpl.
  rewrite !filter_cons, filter_nil. simpl.
  assert (Hs : ∀ s, py_ne (VStr s) (VStr "") = bool_decide (s ≠ "")).
  { intros s. unfold py_ne. apply bool_decide_ext. split; [congruence|].
    intros Hn [=]. done. }
  destruct (decide ("id" ∈ fs)), (decide ("title" ∈ fs)),
    (decide ("author" ∈ fs)), (decide ("description" ∈ fs));
    destruct i as [i|], d as [d|]; simpl; unfold assign; simpl; rewrite ?Hs;
    unfold BookORM.setattr; simpl.
  all: repeat (destruct (decide _)); repeat case_bool_decide; simpl; try done; try tauto.
Qed.

Lemma load_columns (a : BookORM.t) (k : Z) :
  BookORM.id a = VInt k → load k (columns a) = a.
Proof. destruct a; simpl. by intros ->. Qed.

(** Two payloads that drive the loop to the same attributes are answered
    alike. *)
Lemma PUT_book_ext (book1 book2 : Book.t) (book_id : Z) (t : table) :
  (∀ a, updated book1 a = updated book2 a) →
  PUT_book book1 book_id t = PUT_book book2 book_id t.
Proof.
  intros Heq. destruct (t !! book_id) as [r|] eqn:Hr.
  - by rewrite !(PUT_book_found _ _ _ r), Heq.
  - by rewrite !PUT_book_no_row.
Qed.

Lemma validate_without_nulls (b : Body.t) (book : Book.t) :
  validate b = Some book →
  ∃ book', validate (without_nulls b) = Some book' ∧
           ∀ a, updated book a = updated book' a.
Proof.
  destruct b as [i ti au d]. unfold validate, without_nulls. simpl.
  destruct ti as [| |ti]; try done. destruct au as [| |au]; try done.
  intros [= <-]. eexists. split; [done|].
  intros a. rewrite !updated_eq.
  destruct i, d; simpl; repeat (destruct (decide _)); try done;
    exfalso; rewrite ?elem_of_cons in *; intuition congruence.
Qed.

(** ** Update: which fields change *)

(** Whether the update went through or not, an attribute differs from its
    old value only through an item of the dump that is neither [None] nor
    the empty string. *)
Lemma update_frame (book : Book.t) (before after : BookORM.t) :
  after = before ∨ after = updated book before →
  (∀ key, BookORM.getattr after key ≠ BookORM.getattr before key →
     ∃ v, (key, v) ∈ Book.model_dump_exclude_unset book ∧ v ≠ VNone ∧ v ≠ VStr "" ∧
          BookORM.getattr after key = v) ∧
  (∀ key, key ∉ Book.model_fields_set book ∨
          (key, VStr "") ∈ Book.model_dump_exclude_unset book →
     BookORM.getattr after key = BookORM.getattr before key) ∧
  (Book.title book = "" → BookORM.title after = BookORM.title before) ∧
  (BookORM.description after = VStr "" → BookORM.description before = VStr "").
Proof.
  intros Hcase.
  assert (H1 : ∀ key, BookORM.getattr after key ≠ BookORM.getattr before key →
     ∃ v, (key, v) ∈ Book.model_dump_exclude_unset book ∧ v ≠ VNone ∧ v ≠ VStr "" ∧
          BookORM.getattr after key = v).
  { intros key Hne. destruct Hcase as [->| ->]; [done|].
    destruct (foldl_assign_getattr (Book.model_dump_exclude_unset book) before key)
      as [H|H]; [|exact H].
    by fold (updated book before) in H. }
  assert (H2 : ∀ key, key ∉ Book.model_fields_set book ∨
          (key, VStr "") ∈ Book.model_dump_exclude_unset book →
     BookORM.getattr after key = BookORM.getattr before key).
  { intros key Hk.
    destruct (decide (BookORM.getattr after key = BookORM.getattr before key))
      as [|Hne]; [done|].
    apply H1 in Hne as (v & Hv & Hn & He & _). destruct Hk as [Hk|Hk].
    - apply elem_of_model_dump in Hv as [? _]. done.
    - by rewrite (model_dump_functional _ _ _ _ Hv Hk) in He. }
  split; [exact H1|]. split; [exact H2|]. split.
  - intros Ht. apply (H2 "title").
    destruct (decide ("title" ∈ Book.model_fields_set book)); [right|by left].
    apply elem_of_model_dump. split; [done|]. right; left. by rewrite Ht.
  - intros Hd.
    destruct (decide (BookORM.getattr after "description"
                      = BookORM.getattr before "description")) as [He|Hne].
    + change (BookORM.description after = BookORM.description before) in He.
      by rewrite <- He.
    + apply H1 in Hne as (v & _ & _ & Hv & He).
      change (BookORM.description after = v) in He. congruence.
Qed.

(** Where an update of an existing row leaves the table: the row is
    replaced by a record that either is the old one (the commit failed) or
    carries the attributes the loop left. *)
Lemma PUT_book_outcome (t : table) (book : Book.t) (book_id : Z) (r : row) :
  t !! book_id = Some r →
  ∃ (k : Z) (after : row),
    (PUT_book book book_id t).2 = <[k := after]> (delete book_id t) ∧
    (load k after = load book_id r ∨
     load k after = updated book (load book_id r)).
Proof.
  intros Hr. rewrite (PUT_book_found _ _ _ r Hr).
  destruct (updated_id book book_id r) as [k' Hk']. rewrite Hk'.
  destruct (decide (k' = book_id)) as [->|Hne]; simpl.
  - exists book_id, (columns (updated book (load book_id r))).
    split; [by rewrite insert_delete_eq|]. right. by apply load_columns.
  - destruct (in_int64 k'); [destruct (t !! k') eqn:Hk|]; simpl.
    + exists book_id, r. split; [by rewrite insert_delete_id|by left].
    + exists k', (columns (updated book (load book_id r))).
      split; [done|]. right. by apply load_columns.
    + exists book_id, r. split; [by rewrite insert_delete_id|by left].
Qed.

(** C1: for an existing book and any update payload, the table after the
    request is the table before with the book's row replaced by a row
    [after] under a key [k]; a field of that record differs from its
    previous value only if the field was supplied with a value that is
    neither null nor the empty string (and then it is that value); a field
    that was not supplied, or was supplied as the empty string, keeps its
    value.  In particular an empty title does not clear the stored title,
    and the description is never set to the empty string. *)
Theorem update_book_overwrites_only_supplied
    (t : table) (book : Book.t) (book_id : Z) (r : row) :
  t !! book_id = Some r →
  ∃ (k : Z) (after : row),
    (PUT_book book book_id t).2 = <[k := after]> (delete book_id t) ∧
    (∀ key, BookORM.getattr (load k after) key ≠ BookORM.getattr (load book_id r) key →
       ∃ v, (key, v) ∈ Book.model_dump_exclude_unset book ∧ v ≠ VNone ∧ v ≠ VStr "" ∧
            BookORM.getattr (load k after) key = v) ∧
    (∀ key, key ∉ Book.model_fields_set book ∨
            (key, VStr "") ∈ Book.model_dump_exclude_unset book →
       BookORM.getattr (load k after) key = BookORM.getattr (load book_id r) key) ∧
    (Book.title book = "" → col_title after = col_title r) ∧
    (col_description after = VStr "" → col_description r = VStr "").
Proof.
  intros Hr. destruct (PUT_book_outcome t book book_id r Hr) as (k & after & Ht & Hcase).
  exists k, after. split; [exact Ht|].
  by apply (update_frame book (load book_id r) (load k after)).
Qed.

(** The hypothesis of C1 holds of a one-book table. *)
Lemma update_book_overwrites_only_supplied_witness :
  shelf !! 1%Z = Some shelf_row ∧
  ∃ (k : Z) (after : row),
    (PUT_book retitled 1 shelf).2 = <[k := after]> (delete 1%Z shelf) ∧
    (∀ key, BookORM.getattr (load k after) key ≠ BookORM.getattr (load 1 shelf_row) key →
       ∃ v, (key, v) ∈ Book.model_dump_exclude_unset retitled ∧ v ≠ VNone ∧ v ≠ VStr "" ∧
            BookORM.getattr (load k after) key = v) ∧
    (∀ key, key ∉ Book.model_fields_set retitled ∨
            (key, VStr "") ∈ Book.model_dump_exclude_unset retitled →
       BookORM.getattr (load k after) key = BookORM.getattr (load 1 shelf_row) key) ∧
    (Book.title retitled = "" → col_title after = col_title shelf_row) ∧
    (col_description after = VStr "" → col_description shelf_row = VStr "").
Proof.
  split; [reflexivity|].
  apply (update_book_overwrites_only_supplied shelf retitled 1 shelf_row).
  reflexivity.
Defined.

(** ** Update: the response *)

(** An update never answers with a record: the endpoint returns nothing. *)
Lemma PUT_books_body (t : table) (b : Body.t) (book_id : Z) (sent : Book.t) :
  body (PUT_books b book_id t).1 ≠ JBook sent.
Proof.
  unfold PUT_books, with_body. destruct (validate b) as [book|]; [|done].
  destruct (t !! book_id) as [r|] eqn:Hr.
  - rewrite (PUT_book_found _ _ _ r Hr).
    destruct (BookORM.id _) as [|k'|]; [done| |done].
    destruct (decide _); [done|]. destruct (in_int64 k'); [|done].
    by destruct (t !! k').
  - rewrite PUT_book_no_row by done. by destruct (in_int64 book_id).
Qed.

(** C2: a valid update of the existing book 1 is answered with status 200
    and the body [null], not with the updated record, although the row has
    been rewritten; and no update is ever answered with a record. *)
Theorem update_book_returns_no_record :
  PUT_books retitle 1 shelf
    = (mkresp 200 JNull, {[ 1%Z := mkrow (VStr "New") (VStr "A") (VStr "D") ]}) ∧
  ∀ (t : table) (b : Body.t) (book_id : Z) (sent : Book.t),
    body (PUT_books b book_id t).1 ≠ JBook sent.
Proof.
  split; [vm_compute; reflexivity|]. apply PUT_books_body.
Qed.

(** ** Update: the payload *)

Lemma PUT_books_rejected (t : table) (b : Body.t) (book_id : Z) :
  to_option (Body.title b) = None ∨ to_option (Body.author b) = None →
  PUT_books b book_id t = (mkresp 422 JValidationError, t).
Proof.
  unfold PUT_books, with_body, validate.
  destruct (Body.title b), (Body.author b); simpl; try done; by intros [|].
Qed.

(** C3 as stated fails: a body with only [description] is rejected, and the
    stored description stays what it was. *)
Lemma put_only_description_is_rejected :
  validate only_description = None ∧
  PUT_books only_description 1 shelf = (mkresp 422 JValidationError, shelf) ∧
  col_description <$> (PUT_books only_description 1 shelf).2 !! 1%Z = Some (VStr "D").
Proof. by vm_compute. Qed.

(** C3, amended: [title] and [author] are required in the update payload;
    a body that leaves one of them out (or sends it as null) is answered
    with 422 and the table is not touched.  A body that sends both as empty
    strings together with a non-empty description passes validation, is
    answered with 200 and changes only the description of the row. *)
Theorem put_description_needs_title_and_author
    (t : table) (book_id : Z) (r : row) (new : string) :
  t !! book_id = Some r →
  new ≠ "" →
  (∀ b, to_option (Body.title b) = None ∨ to_option (Body.author b) = None →
        PUT_books b book_id t = (mkresp 422 JValidationError, t)) ∧
  is_Some (validate (Body.mk Absent (Given "") (Given "") (Given new))) ∧
  status_code (PUT_books (Body.mk Absent (Given "") (Given "") (Given new)) book_id t).1
    = 200 ∧
  (PUT_books (Body.mk Absent (Given "") (Given "") (Given new)) book_id t).2
    = <[book_id := mkrow (col_title r) (col_author r) (VStr new)]> t.
Proof.
  intros Hr Hnew. split; [intros b; apply PUT_books_rejected|].
  split; [by eexists|].
  unfold PUT_books, with_body. simpl.
  rewrite (PUT_book_found _ _ _ r Hr), updated_eq. simpl.
  destruct (decide (new = "")); [done|].
  destruct (decide (book_id = book_id)); [|done].
  by split.
Qed.

Lemma put_description_needs_title_and_author_witness :
  shelf !! 1%Z = Some shelf_row ∧ "new" ≠ "" ∧
  PUT_books only_description 1 shelf = (mkresp 422 JValidationError, shelf) ∧
  (PUT_books description_with_blanks 1 shelf).2
    = <[1%Z := mkrow (VStr "T") (VStr "A") (VStr "new")]> shelf.
Proof.
  split; [reflexivity|]. split; [done|].
  destruct (put_description_needs_title_and_author shelf 1 shelf_row "new")
    as (Hrej & _ & _ & Hput); [reflexivity|done|].
  split; [apply Hrej; by left|exact Hput].
Defined.

(** ** Update: the primary key *)

(** An [id] of 64 bits in the body that is not in use becomes the key of
    the row. *)
Lemma PUT_books_moves_row (t : table) (book_id new_id : Z) (r : row) :
  t !! book_id = Some r →
  t !! new_id = None →
  in_int64 new_id = true →
  PUT_books (Body.mk (Given new_id) (Given "") (Given "") Absent) book_id t
    = (mkresp 200 JNull, <[new_id := r]> (delete book_id t)).
Proof.
  intros Hr Hnew Hin. unfold PUT_books, with_body. simpl.
  rewrite (PUT_book_found _ _ _ r Hr), updated_eq. simpl.
  destruct (decide (new_id = book_id)) as [->|_]; [congruence|].
  rewrite Hin, Hnew. by destruct r.
Qed.

(** An [id] in the body that another row has makes the commit fail; the
    table keeps both rows as they were. *)
Example PUT_books_id_in_use :
  PUT_books (Body.mk (Given 2%Z) (Given "X") (Given "") Absent) 1 two_books
    = (mkresp 500 InternalServerError, two_books).
Proof. vm_compute. reflexivity. Qed.

(** C4: with [id] 7 in the body, the update of book 1 moves the row to key
    7: afterwards no book has id 1 and the book is read under id 7, so the
    id in the body is not ignored and the record's id is not the one of the
    route. *)
Theorem update_book_takes_id_from_body :
  PUT_books renumber 1 shelf = (mkresp 200 JNull, {[ 7%Z := shelf_row ]}) ∧
  (GET_book 1 (PUT_books renumber 1 shelf).2).1
    = mkresp 404 (JDetail "Book not found") ∧
  (GET_book 7 (PUT_books renumber 1 shelf).2).1
    = mkresp 200 (JBook (Book.mk (Some 7%Z) "T" "A" (Some "D") Book.all_fields)).
Proof. vm_compute. done. Qed.

(** ** Update: null fields *)

(** C9: a body with a field sent as null is answered, and leaves the table,
    exactly as the same body with that field left out; and for an existing
    book the stored value of every field sent as null is kept (a null
    [description] does not clear the stored description, a null [id] does
    not move the row). *)
Theorem update_null_is_like_absent (t : table) (b : Body.t) (book_id : Z) (r : row) :
  PUT_books b book_id t = PUT_books (without_nulls b) book_id t ∧
  (t !! book_id = Some r →
   ∃ (k : Z) (after : row),
     (PUT_books b book_id t).2 = <[k := after]> (delete book_id t) ∧
     (Body.id b = Null → k = book_id) ∧
     (Body.title b = Null → col_title after = col_title r) ∧
     (Body.author b = Null → col_author after = col_author r) ∧
     (Body.description b = Null → col_description after = col_description r)).
Proof.
  split.
  - unfold PUT_books, with_body. destruct (validate b) as [book|] eqn:Hv.
    + destruct (validate_without_nulls b book Hv) as (book' & -> & Heq).
      by apply PUT_book_ext.
    + destruct b as [i [| |ti] [| |au] d]; try done; by destruct au.
  - intros Hr. unfold PUT_books, with_body. destruct (validate b) as [book|] eqn:Hv.
    + destruct (PUT_book_outcome t book book_id r Hr) as (k & after & Ht & Hcase).
      exists k, after. split; [exact Ht|].
      destruct b as [i [| |ti] [| |au] d]; try done. injection Hv as <-.
      rewrite updated_eq in Hcase. simpl in Hcase. simpl.
      destruct Hcase as [Hcase|Hcase]; injection Hcase as Hk Hti Hau Hd.
      * repeat split; intros _; congruence.
      * repeat split; try done; intros ->; simpl in *.
        -- destruct (decide _); congruence.
        -- by destruct (decide _).
    + exists book_id, r. split; [by rewrite insert_delete_id|done].
Qed.

Lemma update_null_is_like_absent_witness :
  shelf !! 1%Z = Some shelf_row ∧
  PUT_books null_description 1 shelf = PUT_books blank 1 shelf ∧
  ∃ (k : Z) (after : row),
    (PUT_books null_description 1 shelf).2 = <[k := after]> (delete 1%Z shelf) ∧
    (Body.description null_description = Null →
     col_description after = col_description shelf_row).
Proof.
  split; [reflexivity|].
  destruct (update_null_is_like_absent shelf null_description 1 shelf_row) as [Heq Hkept].
  split; [exact Heq|].
  destruct (Hkept eq_refl) as (k & after & Ht & _ & _ & _ & Hd).
  by exists k, after.
Defined.

(** ** Create *)

Lemma validate_Some (b : Body.t) (book : Book.t) :
  validate b = Some book →
  Body.title b = Given (Book.title book) ∧
  Body.author b = Given (Book.author book) ∧
  to_option (Body.description b) = Book.description book.
Proof.
  unfold validate. destruct (Body.title b), (Body.author b); try done.
  by intros [= <-].
Qed.

Lemma POST_books_run (t : table) (b : Body.t) (book : Book.t) :
  validate b = Some book →
  POST_books b t =
    (mkresp 200
       (JBook (Book.mk (Some (next_rowid t)) (Book.title book) (Book.author book)
                 (Book.description book) Book.all_fields)),
     <[next_rowid t := mkrow (VStr (Book.title book)) (VStr (Book.author book))
                         (of_str (Book.description book))]> t).
Proof.
  intros Hv. unfold POST_books, with_body. rewrite Hv. apply POST_book_run.
Qed.

(** C5 as stated fails: a body with empty [title] and [author] passes
    validation and is persisted with both empty. *)
Lemma create_persists_empty_title :
  is_Some (validate blank) ∧
  (POST_books blank ∅).2 !! 1%Z = Some (mkrow (VStr "") (VStr "") VNone).
Proof. split; [by eexists|by vm_compute]. Qed.

(** C5, amended: for every create request that passes validation, [title]
    and [author] were given as strings in the body and the new row holds
    exactly these strings (never null); they are not checked for emptiness. *)
Theorem create_persists_payload_strings (t : table) (b : Body.t) (book : Book.t) :
  validate b = Some book →
  Body.title b = Given (Book.title book) ∧
  Body.author b = Given (Book.author book) ∧
  ∃ (k : Z) (new : row),
    t !! k = None ∧
    (POST_books b t).2 = <[k := new]> t ∧
    col_title new = VStr (Book.title book) ∧
    col_author new = VStr (Book.author book).
Proof.
  intros Hv. destruct (validate_Some b book Hv) as (Hti & Hau & _).
  split; [exact Hti|]. split; [exact Hau|].
  rewrite (POST_books_run t b book Hv). simpl.
  eexists _, _. split; [apply next_rowid_fresh|]. by split.
Qed.

Lemma create_persists_payload_strings_witness :
  validate blank = Some (Book.mk None "" "" None ["title"; "author"]) ∧
  ∃ (k : Z) (new : row),
    shelf !! k = None ∧
    (POST_books blank shelf).2 = <[k := new]> shelf ∧
    col_title new = VStr "" ∧
    col_author new = VStr "".
Proof.
  split; [reflexivity|].
  apply (create_persists_payload_strings shelf blank
           (Book.mk None "" "" None ["title"; "author"])).
  reflexivity.
Defined.

(** C6: a valid create inserts a new row under a key the storage engine
    allocates, which no row had: 1 on the empty table, one more than the
    largest key in use while that is below the largest key there is, and
    some unused key otherwise.  The key depends on the table alone, not on
    an [id] in the body.  The answer is 200 with the whole record (the
    allocated id, and title, author and description as given).  For title
    "A", author "B" and no description the record has the allocated id,
    "A", "B" and a null description. *)
Theorem create_book_assigns_id (t : table) (b : Body.t) (book : Book.t) :
  validate b = Some book →
  (∃ k : Z,
     t !! k = None ∧
     (t = ∅ → k = 1%Z) ∧
     (∀ m, largest_rowid t = Some m → (m < MAX_ROWID)%Z → k = (m + 1)%Z) ∧
     POST_books b t =
       (mkresp 200
          (JBook (Book.mk (Some k) (Book.title book) (Book.author book)
                    (Book.description book) Book.all_fields)),
        <[k := mkrow (VStr (Book.title book)) (VStr (Book.author book))
                 (of_str (Book.description book))]> t)) ∧
  (∃ k : Z,
     t !! k = None ∧
     POST_books A_by_B t =
       (mkresp 200 (JBook (Book.mk (Some k) "A" "B" None Book.all_fields)),
        <[k := mkrow (VStr "A") (VStr "B") VNone]> t)).
Proof.
  intros Hv. split.
  - exists (next_rowid t). split; [apply next_rowid_fresh|].
    split; [by intros ->|]. split; [apply next_rowid_below_max|].
    by apply POST_books_run.
  - exists (next_rowid t). split; [apply next_rowid_fresh|].
    by apply (POST_books_run t A_by_B (Book.mk None "A" "B" None ["title"; "author"])).
Qed.

Lemma create_book_assigns_id_witness :
  validate A_by_B = Some (Book.mk None "A" "B" None ["title"; "author"]) ∧
  ∃ k : Z,
    shelf !! k = None ∧
    POST_books A_by_B shelf =
      (mkresp 200 (JBook (Book.mk (Some k) "A" "B" None Book.all_fields)),
       <[k := mkrow (VStr "A") (VStr "B") VNone]> shelf).
Proof.
  split; [reflexivity|].
  destruct (create_book_assigns_id shelf A_by_B
              (Book.mk None "A" "B" None ["title"; "author"]) eq_refl)
    as [_ Hpost].
  exact Hpost.
Defined.

(** ** Create, get and delete together *)




(** ** Requests for an id that has no row *)

(** C8 as stated fails: for an id beyond 64 bits, which has no row, update
    and delete are answered 500, not 404 (the table stays as it was). *)
Lemma missing_id_beyond_int64_not_404 :
  shelf !! too_large = None ∧
  PUT_books retitle too_large shelf = (mkresp 500 InternalServerError, shelf) ∧
  DELETE_book too_large shelf = (mkresp 500 InternalServerError, shelf).
Proof.
  by vm_compute.
Qed.

(** C8, amended: when no row has the id, update and delete leave the table
    exactly as it was, whatever the payload; for an id of 64 bits they
    answer 404 (update: with a payload that passes validation), for an id
    beyond 64 bits 500; a second delete of an id of 64 bits answers 404 and
    changes nothing. *)
Theorem missing_id_changes_nothing (t : table) (b : Body.t) (book_id : Z) :
  t !! book_id = None →
  (in_int64 book_id = true → is_Some (validate b) →
   PUT_books b book_id t = (mkresp 404 (JDetail "Book not found"), t)) ∧
  (in_int64 book_id = true →
   DELETE_book book_id t = (mkresp 404 (JDetail "Book not found"), t)) ∧
  (in_int64 book_id = false → is_Some (validate b) →
   PUT_books b book_id t = (mkresp 500 InternalServerError, t)) ∧
  (in_int64 book_id = false →
   DELETE_book book_id t = (mkresp 500 InternalServerError, t)) ∧
  (PUT_books b book_id t).2 = t ∧
  (DELETE_book book_id t).2 = t ∧
  ∀ (t' : table) (deleted : Z),
    in_int64 deleted = true →
    DELETE_book deleted (DELETE_book deleted t').2
      = (mkresp 404 (JDetail "Book not found"), (DELETE_book deleted t').2).
Proof.
  intros Hr. repeat split.
  - intros Hin [book Hv]. unfold PUT_books, with_body. rewrite Hv.
    by apply PUT_book_missing.
  - by apply DELETE_book_missing.
  - intros Hin [book Hv]. unfold PUT_books, with_body. rewrite Hv.
    by rewrite PUT_book_no_row, Hin.
  - intros Hin. by rewrite DELETE_book_no_row, Hin.
  - unfold PUT_books, with_body. destruct (validate b); [|done].
    by rewrite PUT_book_no_row.
  - by rewrite DELETE_book_no_row.
  - intros t' deleted Hin. apply DELETE_book_missing; [|done].
    destruct (t' !! deleted) as [r|] eqn:Hr'.
    + rewrite (DELETE_book_found _ _ r Hr'). apply lookup_delete_eq.
    + by rewrite DELETE_book_no_row.
Qed.

Lemma missing_id_changes_nothing_witness :
  shelf !! 5%Z = None ∧ in_int64 5 = true ∧
  shelf !! too_large = None ∧ in_int64 too_large = false ∧
  PUT_books retitle 5 shelf = (mkresp 404 (JDetail "Book not found"), shelf) ∧
  DELETE_book 5 shelf = (mkresp 404 (JDetail "Book not found"), shelf) ∧
  PUT_books retitle too_large shelf = (mkresp 500 InternalServerError, shelf) ∧
  DELETE_book 1 (DELETE_book 1 shelf).2
    = (mkresp 404 (JDetail "Book not found"), (DELETE_book 1 shelf).2).
Proof.
  split; [reflexivity|]. split; [reflexivity|].
  split; [reflexivity|]. split; [reflexivity|].
  destruct (missing_id_changes_nothing shelf retitle 5 eq_refl)
    as (Hput & Hdel & _ & _ & _ & _ & Hagain).
  destruct (missing_id_changes_nothing shelf retitle too_large eq_refl)
    as (_ & _ & Hlarge & _).
  split; [apply Hput; [reflexivity|by eexists]|].
  split; [by apply Hdel|].
  split; [apply Hlarge; [reflexivity|by eexists]|by apply Hagain].
Defined.

(** ** Reads *)

Lemma GET_book_table (t : table) (book_id : Z) : (GET_book book_id t).2 = t.
Proof.
  destruct (t !! book_id) as [r|] eqn:Hr.
  - by rewrite (GET_book_found _ _ r Hr).
  - by rewrite GET_book_no_row.
Qed.

Lemma GET_books_table (t : table) : (GET_books t).2 = t.
Proof.
  unfold GET_books, respond, get_books, Session_bind.
  unfold mbind, M_bind, query_all. reflexivity.
Qed.

(** C10: reading one book or all books leaves the table exactly as it was,
    whatever the answer. *)
Theorem reads_leave_table (t : table) (book_id : Z) :
  (GET_book book_id t).2 = t ∧ (GET_books t).2 = t.
Proof. split; [apply GET_book_table|apply GET_books_table]. Qed.

(** ** Where the ids of the rows come from *)

(** A request that is not an update carrying an [id] leaves under each key
    a row only if there was one before or the request created it. *)
Lemma serve_keys (q : request) (t : table) (k : Z) :
  carries_id q = false →
  is_Some ((serve q t).2 !! k) →
  is_Some (t !! k) ∨ created_id q (serve q t).1 = Some k.
Proof.
  destruct q as [book_id| |b|book_id|b book_id]; unfold serve; intros Hc.
  - by rewrite GET_book_table; left.
  - by rewrite GET_books_table; left.
  - unfold created_id. destruct (validate b) as [book|] eqn:Hv.
    + rewrite (POST_books_run t b book Hv). simpl.
      destruct (decide (next_rowid t = k)) as [->|Hne]; [by right|].
      rewrite lookup_insert_ne by done. by left.
    + unfold POST_books, with_body. rewrite Hv. by left.
  - destruct (t !! book_id) as [r|] eqn:Hr.
    + rewrite (DELETE_book_found _ _ r Hr). simpl.
      destruct (decide (book_id = k)) as [->|Hne].
      * by rewrite lookup_delete_eq; intros [? ?].
      * rewrite lookup_delete_ne by done. by left.
    + rewrite DELETE_book_no_row by done. by left.
  - apply bool_decide_eq_false in Hc.
    unfold PUT_books, with_body. destruct (validate b) as [book|] eqn:Hv; [|by left].
    destruct (t !! book_id) as [r|] eqn:Hr; [|by rewrite PUT_book_no_row; [left|]].
    rewrite (PUT_book_found _ _ _ r Hr), updated_eq.
    assert (Hid : Book.id book = None).
    { destruct b as [i [| |ti] [| |au] d]; try done. injection Hv as <-. simpl in *.
      destruct i; try done. destruct Hc. by eexists. }
    simpl. rewrite Hid.
    assert (Hsame : (if decide ("id" ∈ Book.model_fields_set book)
                     then VInt book_id else VInt book_id) = VInt book_id)
      by (by destruct (decide _)).
    rewrite Hsame. destruct (decide (book_id = book_id)); [|done]. simpl.
    destruct (decide (book_id = k)) as [->|Hne]; [left; by eexists|].
    rewrite lookup_insert_ne by done. by left.
Qed.

(** Along any sequence of requests none of which is an update carrying an
    [id], a key holds a row at the end only if it held one at the start or
    a create request was answered with it. *)
Lemma serve_all_keys (qs : list request) (t : table) (k : Z) :
  Forall (λ q, carries_id q = false) qs →
  is_Some ((serve_all qs t).2 !! k) →
  is_Some (t !! k) ∨ k ∈ created_ids qs (serve_all qs t).1.
Proof.
  revert t. induction qs as [|q qs IH]; intros t Hqs; simpl; [by left|].
  apply Forall_cons in Hqs as [Hq Hqs].
  destruct (serve q t) as [resp t'] eqn:Hs.
  specialize (IH t' Hqs). destruct (serve_all qs t') as [resps t''].
  simpl in *. intros Hk. unfold created_ids. simpl.
  destruct (IH Hk) as [Hk'|Hin].
  - replace t' with (serve q t).2 in Hk' by (by rewrite Hs).
    destruct (serve_keys q t k Hq Hk') as [?|Hc]; [by left|].
    right. rewrite Hs in Hc. simpl in Hc. rewrite Hc. by left.
  - right. destruct (created_id q resp); [by right|done].
Qed.

(** X16: starting from the empty table, and as long as no update carries
    an [id], reading an id of 64 bits that no create request was answered
    with is answered 404. *)
Corollary never_created_not_found (qs : list request) (book_id : Z) :
  Forall (λ q, carries_id q = false) qs →
  book_id ∉ created_ids qs (serve_all qs ∅).1 →
  in_int64 book_id = true →
  GET_book book_id (serve_all qs ∅).2
    = (mkresp 404 (JDetail "Book not found"), (serve_all qs ∅).2).
Proof.
  intros Hqs Hk Hin. apply GET_book_missing; [|done].
  destruct ((serve_all qs ∅).2 !! book_id) as [r|] eqn:Hr; [|done].
  destruct (serve_all_keys qs ∅ book_id Hqs) as [[? Hin']|Hin']; [by eexists| |done].
  by rewrite lookup_empty in Hin'.
Qed.

(** With an update that carries an [id] this fails: the book created under
    id 1 is then read under id 7, which no create request was answered
    with. *)
Example renumbered_is_found :
  let qs := [Post A_by_B; Put renumber 1] in
  created_ids qs (serve_all qs ∅).1 = [1%Z] ∧
  (GET_book 7 (serve_all qs ∅).2).1
    = mkresp 200 (JBook (Book.mk (Some 7%Z) "A" "B" None Book.all_fields)).
Proof. by vm_compute. Qed.

(** * Further properties of the handlers *)

(** ** Rows and the response model *)

Lemma from_attributes_well_formed (k : Z) (r : row) :
  is_Some (Book.from_attributes (load k r)) ↔ well_formed_row r = true.
Proof.
  unfold Book.from_attributes, well_formed_row, load. simpl.
  destruct (col_title r), (col_author r), (col_description r); simpl;
    split; try done; try (by intros [? ?]); by eexists.
Qed.

Lemma from_attributes_id (k : Z) (r : row) (book : Book.t) :
  Book.from_attributes (load k r) = Some book → Book.id book = Some k.
Proof.
  unfold Book.from_attributes, load. simpl.
  destruct (col_title r), (col_author r), (col_description r); simpl;
    try done; by intros [= <-].
Qed.

(** ** Listing *)

(** The references [query_all] hands out denote, in order, the instances
    it loaded. *)
Lemma mapM_references {B} (f : instance → option B) (pre l : list instance) :
  mapM (λ ref, i ← (pre ++ l)%list !! ref; f i) (seq (length pre) (length l)) = mapM f l.
Proof.
  revert pre. induction l as [|x l IH]; intros pre; simpl; [done|].
  rewrite lookup_app_r, Nat.sub_diag by lia. simpl.
  specialize (IH (pre ++ [x])%list). rewrite <- app_assoc, length_app in IH. simpl in IH.
  rewrite Nat.add_1_r in IH. by rewrite IH.
Qed.

(** The instances [query_all] loads are those of the scanned rows. *)
Lemma query_all_loaded (t : table) (ks : list Z) :
  omap (λ k, mkinst (Persistent k) ∘ load k <$> t !! k) ks
  = (λ kr, mkinst (Persistent kr.1) (load kr.1 kr.2)) <$> omap (λ k, pair k <$> t !! k) ks.
Proof.
  induction ks as [|k ks IH]; simpl; [done|].
  destruct (t !! k); simpl; [f_equal|]; apply IH.
Qed.

Lemma elem_of_rowids (t : table) (k : Z) : k ∈ rowids t ↔ is_Some (t !! k).
Proof.
  unfold rowids. rewrite merge_sort_Permutation. split.
  - intros ([k' r] & -> & Hin)%list_elem_of_fmap.
    apply elem_of_map_to_list in Hin. by eexists.
  - intros [r Hr]. apply list_elem_of_fmap. exists (k, r).
    split; [done|]. by apply elem_of_map_to_list.
Qed.

Lemma NoDup_rowids (t : table) : NoDup (rowids t).
Proof.
  unfold rowids. rewrite merge_sort_Permutation. apply NoDup_fst_map_to_list.
Qed.

Lemma length_rowids (t : table) : length (rowids t) = size t.
Proof.
  unfold rowids. rewrite merge_sort_Permutation.
  by rewrite length_map, length_map_to_list.
Qed.

Lemma scan_keys (t : table) : (scan t).*1 = rowids t.
Proof.
  unfold scan. assert (Hkeys : ∀ k, k ∈ rowids t → is_Some (t !! k))
    by (intros k; apply elem_of_rowids).
  induction (rowids t) as [|k ks IH]; simpl; [done|].
  destruct (Hkeys k) as [r Hr]; [by left|]. rewrite Hr. simpl.
  f_equal. apply IH. intros k' Hk'. apply Hkeys. by right.
Qed.

Lemma elem_of_scan (t : table) (k : Z) (r : row) : (k, r) ∈ scan t ↔ t !! k = Some r.
Proof.
  unfold scan. rewrite list_elem_of_omap. split.
  - intros (k' & _ & Hk'). destruct (t !! k') as [r'|] eqn:Hr; [|done].
    simpl in Hk'. by injection Hk' as -> ->.
  - intros Hr. exists k. split; [apply elem_of_rowids; by eexists|].
    by rewrite Hr.
Qed.

Lemma length_scan (t : table) : length (scan t) = size t.
Proof. by rewrite <- length_rowids, <- scan_keys, length_fmap. Qed.

(** What [GET /books] computes: the scanned rows, each validated against
    the response model. *)
Lemma GET_books_run (t : table) :
  GET_books t =
    (match mapM (λ kr, Book.from_attributes (load kr.1 kr.2)) (scan t) with
     | Some bs => mkresp 200 (JBooks bs)
     | None => mkresp 500 InternalServerError
     end, t).
Proof.
  unfold GET_books, respond, get_books, Session_bind.
  unfold mbind, M_bind, query_all. simpl. unfold as_Books.
  pose proof (mapM_references (λ i, Book.from_attributes (attrs i)) []
                (omap (λ k, mkinst (Persistent k) ∘ load k <$> t !! k) (rowids t)))
    as Hrefs.
  simpl in Hrefs. rewrite Hrefs. clear Hrefs.
  rewrite query_all_loaded. fold (scan t).
  assert (Hm : ∀ l : list (Z * row),
    mapM (λ i, Book.from_attributes (attrs i))
      ((λ kr, mkinst (Persistent kr.1) (load kr.1 kr.2)) <$> l)
    = mapM (λ kr, Book.from_attributes (load kr.1 kr.2)) l).
  { induction l as [|kr l IH]; [done|]. rewrite fmap_cons. simpl.
    destruct (Book.from_attributes (load kr.1 kr.2)); simpl; [|done].
    by rewrite IH. }
  rewrite Hm.
  by destruct (mapM _ (scan t)).
Qed.

Lemma Forall2_elem_of_r {A B} (f : A → option B) (l : list A) (k : list B) (y : B) :
  Forall2 (λ x y, f x = Some y) l k →
  y ∈ k ↔ ∃ x, x ∈ l ∧ f x = Some y.
Proof.
  induction 1 as [|x y' l k Hxy _ IH].
  - split; [by intros ?%elem_of_nil|]. by intros (? & ?%elem_of_nil & _).
  - rewrite elem_of_cons, IH. split.
    + intros [->|(x' & Hx' & Hf)]; [exists x; split; [by left|done]|].
      exists x'. split; [by right|done].
    + intros (x' & [->|Hx']%elem_of_cons & Hf); [left; congruence|].
      right. by exists x'.
Qed.

Lemma Forall2_from_attributes_ids (l : list (Z * row)) (bs : list Book.t) :
  Forall2 (λ kr book, Book.from_attributes (load kr.1 kr.2) = Some book) l bs →
  Book.id <$> bs = Some <$> l.*1.
Proof.
  induction 1 as [|[k r] book l bs Hb _ IH]; [done|].
  rewrite !fmap_cons, IH. simpl. by rewrite (from_attributes_id k r book Hb).
Qed.

(** Every scanned row passes the response model exactly when the table is
    well formed. *)
Lemma mapM_scan_is_Some (t : table) :
  is_Some (mapM (λ kr, Book.from_attributes (load kr.1 kr.2)) (scan t)) ↔ well_formed t.
Proof.
  rewrite mapM_is_Some, Forall_forall. unfold well_formed, map_Forall. split.
  - intros Hall k r Hr. apply (from_attributes_well_formed k r).
    apply (Hall (k, r)). by apply elem_of_scan.
  - intros Hwf [k r] Hin. apply elem_of_scan in Hin. simpl.
    apply from_attributes_well_formed. by apply (Hwf k r).
Qed.

(** The listing of a well-formed table. *)
Lemma GET_books_listing (t : table) :
  well_formed t →
  ∃ bs : list Book.t,
    GET_books t = (mkresp 200 (JBooks bs), t) ∧
    length bs = size t ∧
    NoDup (Book.id <$> bs) ∧
    ∀ book, book ∈ bs ↔
            ∃ k r, t !! k = Some r ∧ Book.from_attributes (load k r) = Some book.
Proof.
  intros Hwf. rewrite GET_books_run.
  apply mapM_scan_is_Some in Hwf as [bs Hbs]. rewrite Hbs.
  apply mapM_Some_1 in Hbs. exists bs. split; [done|]. split; [|split].
  - by rewrite <- (Forall2_length _ _ _ Hbs), length_scan.
  - rewrite (Forall2_from_attributes_ids _ _ Hbs), scan_keys.
    apply (NoDup_fmap_2 _). apply NoDup_rowids.
  - intros book. rewrite (Forall2_elem_of_r _ _ _ _ Hbs). split.
    + intros ([k r] & Hin & Hb). exists k, r. split; [by apply elem_of_scan|done].
    + intros (k & r & Hr & Hb). exists (k, r). split; [by apply elem_of_scan|done].
Qed.

(** X1: on a well-formed table [GET /books] answers 200 with one record per
    row: as many records as rows, with pairwise distinct ids, and a record
    is listed exactly when it is the record of some row. *)
Theorem get_books_lists_every_row (t : table) :
  well_formed t →
  ∃ bs : list Book.t,
    GET_books t = (mkresp 200 (JBooks bs), t) ∧
    length bs = size t ∧
    NoDup (Book.id <$> bs) ∧
    ∀ book, book ∈ bs ↔
            ∃ k r, t !! k = Some r ∧ Book.from_attributes (load k r) = Some book.
Proof. apply GET_books_listing. Qed.

Lemma well_formed_shelf : well_formed shelf.
Proof.
  intros k r Hr. unfold shelf in Hr.
  apply lookup_singleton_Some in Hr as [_ <-]. reflexivity.
Qed.

Lemma get_books_lists_every_row_witness :
  ∃ bs : list Book.t,
    GET_books shelf = (mkresp 200 (JBooks bs), shelf) ∧
    length bs = size shelf ∧
    NoDup (Book.id <$> bs) ∧
    ∀ book, book ∈ bs ↔
            ∃ k r, shelf !! k = Some r ∧ Book.from_attributes (load k r) = Some book.
Proof. apply (get_books_lists_every_row shelf). apply well_formed_shelf. Defined.

(** X2: the reads answer 200 exactly when the rows they return fit the
    response model: [GET /books] when the whole table is well formed, and
    [GET /books/{id}] of an existing row when that row is; a row with, say,
    a NULL title makes them fail. *)
Theorem reads_succeed_iff_rows_well_formed (t : table) (book_id : Z) (r : row) :
  (status_code (GET_books t).1 = 200 ↔ well_formed t) ∧
  (t !! book_id = Some r →
   (status_code (GET_book book_id t).1 = 200 ↔ well_formed_row r = true)).
Proof.
  split.
  - rewrite GET_books_run, <- mapM_scan_is_Some. simpl.
    destruct (mapM _ (scan t)) as [bs|]; simpl.
    + split; [by eexists|done].
    + split; [done|by intros [? ?]].
  - intros Hr. rewrite (GET_book_found _ _ r Hr), <- (from_attributes_well_formed book_id).
    simpl. destruct (Book.from_attributes (load book_id r)); simpl.
    + split; [by eexists|done].
    + split; [done|by intros [? ?]].
Qed.

Lemma reads_succeed_iff_rows_well_formed_witness :
  shelf !! 1%Z = Some shelf_row ∧
  (status_code (GET_book 1 shelf).1 = 200 ↔ well_formed_row shelf_row = true).
Proof.
  split; [reflexivity|].
  apply (reads_succeed_iff_rows_well_formed shelf 1 shelf_row). reflexivity.
Defined.

(** ** The rows the service writes *)

Lemma columns_load (k : Z) (r : row) : columns (load k r) = r.
Proof. by destruct r. Qed.

(** The update loop keeps a well-formed row well formed: it only ever
    assigns strings. *)
Lemma updated_well_formed (book : Book.t) (k : Z) (r : row) :
  well_formed_row r = true →
  well_formed_row (columns (updated book (load k r))) = true.
Proof.
  rewrite updated_eq. unfold well_formed_row, columns, load. simpl.
  destruct (col_title r), (col_author r), (col_description r); try done;
    intros _; repeat (destruct (decide _)); try done;
    destruct (Book.description book); try done; by destruct (decide _).
Qed.

Lemma PUT_book_well_formed (t : table) (book : Book.t) (book_id : Z) :
  well_formed t → well_formed (PUT_book book book_id t).2.
Proof.
  intros Hwf. destruct (t !! book_id) as [r|] eqn:Hr.
  - destruct (PUT_book_outcome t book book_id r Hr) as (k & after & -> & Hcase).
    apply map_Forall_insert_2; [|by apply map_Forall_delete].
    rewrite <- (columns_load k after).
    destruct Hcase as [-> | ->].
    + rewrite columns_load. by apply (Hwf book_id).
    + apply updated_well_formed. by apply (Hwf book_id).
  - by rewrite PUT_book_no_row.
Qed.

Lemma serve_well_formed (q : request) (t : table) :
  well_formed t → well_formed (serve q t).2.
Proof.
  intros Hwf. destruct q as [book_id| |b|book_id|b book_id]; unfold serve.
  - by rewrite GET_book_table.
  - by rewrite GET_books_table.
  - unfold POST_books, with_body. destruct (validate b) as [book|]; [|done].
    rewrite POST_book_run. simpl. apply map_Forall_insert_2; [|done].
    unfold well_formed_row. simpl. by destruct (Book.description book).
  - destruct (t !! book_id) as [r|] eqn:Hr.
    + rewrite (DELETE_book_found _ _ r Hr). by apply map_Forall_delete.
    + by rewrite DELETE_book_no_row.
  - unfold PUT_books, with_body. destruct (validate b) as [book|]; [|done].
    by apply PUT_book_well_formed.
Qed.

Lemma serve_all_well_formed (qs : list request) (t : table) :
  well_formed t → well_formed (serve_all qs t).2.
Proof.
  revert t. induction qs as [|q qs IH]; intros t Hwf; simpl; [done|].
  pose proof (serve_well_formed q t Hwf) as Hq.
  destruct (serve q t) as [resp t']. specialize (IH t' Hq).
  by destruct (serve_all qs t').
Qed.

(** X3: every request keeps the table well formed: create stores the
    strings of the validated payload, update only assigns strings, and the
    other requests add nothing. *)
Theorem requests_keep_rows_well_formed (q : request) (t : table) :
  well_formed t → well_formed (serve q t).2.
Proof. apply serve_well_formed. Qed.

Lemma requests_keep_rows_well_formed_witness :
  well_formed (serve (Put rewrite_all 1) shelf).2.
Proof.
  apply (requests_keep_rows_well_formed (Put rewrite_all 1) shelf).
  apply well_formed_shelf.
Defined.

(** X4: on a table the service has built from the empty one, by whatever
    requests, reading never fails on a row: [GET /books] answers 200, and
    [GET /books/{id}] for an id of 64 bits answers 200 or 404. *)
Theorem reads_never_fail_on_served_tables (qs : list request) (book_id : Z) :
  status_code (GET_books (serve_all qs ∅).2).1 = 200 ∧
  (in_int64 book_id = true →
   status_code (GET_book book_id (serve_all qs ∅).2).1 = 200 ∨
   status_code (GET_book book_id (serve_all qs ∅).2).1 = 404).
Proof.
  assert (Hwf : well_formed (serve_all qs ∅).2)
    by (apply serve_all_well_formed, map_Forall_empty).
  split.
  - rewrite GET_books_run. apply mapM_scan_is_Some in Hwf as [bs ->]. done.
  - intros Hin. destruct ((serve_all qs ∅).2 !! book_id) as [r|] eqn:Hr.
    + left. rewrite (GET_book_found _ _ r Hr).
      destruct (proj2 (from_attributes_well_formed book_id r)) as [book ->]; [|done].
      by apply (Hwf book_id).
    + right. by rewrite GET_book_missing.
Qed.

Lemma reads_never_fail_on_served_tables_witness :
  in_int64 3 = true ∧
  status_code (GET_books (serve_all [Post A_by_B; Put rewrite_all 1] ∅).2).1 = 200 ∧
  (status_code (GET_book 3 (serve_all [Post A_by_B; Put rewrite_all 1] ∅).2).1 = 200 ∨
   status_code (GET_book 3 (serve_all [Post A_by_B; Put rewrite_all 1] ∅).2).1 = 404).
Proof.
  split; [reflexivity|].
  destruct (reads_never_fail_on_served_tables [Post A_by_B; Put rewrite_all 1] 3)
    as [Hall Hone].
  split; [exact Hall|apply Hone; reflexivity].
Defined.

(** ** Updates, case by case *)

(** The ways an update of an existing row ends: the row is rewritten in
    place; the key the loop left cannot be bound, or belongs to another
    row, and the commit fails; or the key is free and the row moves there. *)
Lemma PUT_book_cases (t : table) (book : Book.t) (book_id : Z) (r : row) :
  t !! book_id = Some r →
  ∃ k', BookORM.id (updated book (load book_id r)) = VInt k' ∧
    ((k' = book_id ∧
      PUT_book book book_id t
        = (mkresp 200 JNull, <[book_id := columns (updated book (load book_id r))]> t)) ∨
     (k' ≠ book_id ∧ (in_int64 k' = false ∨ is_Some (t !! k')) ∧
      PUT_book book book_id t = (mkresp 500 InternalServerError, t)) ∨
     (k' ≠ book_id ∧ in_int64 k' = true ∧ t !! k' = None ∧
      PUT_book book book_id t
        = (mkresp 200 JNull,
           <[k' := columns (updated book (load book_id r))]> (delete book_id t)))).
Proof.
  intros Hr. rewrite (PUT_book_found _ _ _ r Hr).
  destruct (updated_id book book_id r) as [k' Hk']. exists k'. split; [done|].
  rewrite Hk'. destruct (decide (k' = book_id)) as [->|Hne]; [by left|]. right.
  destruct (in_int64 k') eqn:Hin; [|left; by eauto].
  destruct (t !! k') as [r'|] eqn:Hk; [left|right]; by eauto.
Qed.

(** The key the loop leaves for a validated body: the body's [id] when one
    is given, otherwise the key of the row. *)
Lemma updated_id_of_body (b : Body.t) (book : Book.t) (book_id : Z) (r : row) :
  validate b = Some book →
  BookORM.id (updated book (load book_id r))
    = VInt (match Body.id b with Given n => n | _ => book_id end).
Proof.
  intros Hv. rewrite updated_eq. simpl.
  destruct b as [i [| |ti] [| |au] d]; try done. injection Hv as <-. simpl.
  destruct i; simpl; repeat (destruct (decide _)); done.
Qed.

Lemma updated_idemp (book : Book.t) (a : BookORM.t) :
  updated book (updated book a) = updated book a.
Proof.
  rewrite !updated_eq. simpl.
  f_equal; repeat (destruct (decide _)); try done;
    destruct (Book.id book), (Book.description book); try done;
    by repeat (destruct (decide _)).
Qed.

(** ** Failure is atomic *)

Lemma PUT_book_failed (t : table) (book : Book.t) (book_id : Z) :
  status_code (PUT_book book book_id t).1 ≠ 200 → (PUT_book book book_id t).2 = t.
Proof.
  destruct (t !! book_id) as [r|] eqn:Hr; [|by rewrite PUT_book_no_row].
  destruct (PUT_book_cases t book book_id r Hr)
    as (k' & _ & [(_ & ->)|[(_ & _ & ->)|(_ & _ & _ & ->)]]); done.
Qed.

(** X5: a request that is not answered with 200 (404 for a missing id, 422
    for a rejected body, 500 for a failed commit or an ill-formed row)
    leaves the table exactly as it was. *)
Theorem failed_requests_change_nothing (q : request) (t : table) :
  status_code (serve q t).1 ≠ 200 → (serve q t).2 = t.
Proof.
  destruct q as [book_id| |b|book_id|b book_id]; unfold serve; intros Hs.
  - apply GET_book_table.
  - apply GET_books_table.
  - revert Hs. unfold POST_books, with_body. destruct (validate b) as [book|]; [|done].
    by rewrite POST_book_run.
  - destruct (t !! book_id) as [r|] eqn:Hr.
    + by rewrite (DELETE_book_found _ _ r Hr) in Hs.
    + by rewrite DELETE_book_no_row.
  - revert Hs. unfold PUT_books, with_body. destruct (validate b) as [book|]; [|done].
    apply PUT_book_failed.
Qed.

Lemma failed_requests_change_nothing_witness :
  status_code (serve (Put renumber_to_2 1) two_books).1 ≠ 200 ∧
  (serve (Put renumber_to_2 1) two_books).2 = two_books.
Proof.
  assert (H : status_code (serve (Put renumber_to_2 1) two_books).1 ≠ 200)
    by (vm_compute; discriminate).
  split; [exact H|].
  apply (failed_requests_change_nothing (Put renumber_to_2 1) two_books H).
Defined.

(** ** An update concerns one row *)

Lemma PUT_book_size (t : table) (book : Book.t) (book_id : Z) :
  size (PUT_book book book_id t).2 = size t.
Proof.
  destruct (t !! book_id) as [r|] eqn:Hr; [|by rewrite PUT_book_no_row].
  destruct (PUT_book_cases t book book_id r Hr)
    as (k' & _ & [(_ & ->)|[(_ & _ & ->)|(Hne & _ & Hk & ->)]]); simpl.
  - by rewrite map_size_insert, Hr.
  - done.
  - rewrite map_size_insert_None by (by rewrite lookup_delete_ne).
    rewrite map_size_delete, Hr. simpl.
    assert (size t ≠ 0) by (intros ->%map_size_empty_inv; by rewrite lookup_empty in Hr).
    lia.
Qed.

Lemma PUT_book_others (t : table) (book : Book.t) (book_id k : Z) (r' : row) :
  k ≠ book_id → t !! k = Some r' → (PUT_book book book_id t).2 !! k = Some r'.
Proof.
  intros Hk Hr'. destruct (t !! book_id) as [r|] eqn:Hr; [|by rewrite PUT_book_no_row].
  destruct (PUT_book_cases t book book_id r Hr)
    as (k' & _ & [(_ & ->)|[(_ & _ & ->)|(Hne & _ & Hfree & ->)]]); simpl.
  - by rewrite lookup_insert_ne.
  - done.
  - rewrite lookup_insert_ne by congruence. by rewrite lookup_delete_ne.
Qed.

(** X6: an update never changes the number of books, and never changes or
    removes a book other than the one named in the route, whatever the
    body (also when the body carries the id of another book). *)
Theorem update_concerns_one_row (t : table) (b : Body.t) (book_id : Z) :
  size (PUT_books b book_id t).2 = size t ∧
  ∀ k r', k ≠ book_id → t !! k = Some r' → (PUT_books b book_id t).2 !! k = Some r'.
Proof.
  unfold PUT_books, with_body. destruct (validate b) as [book|]; [|done].
  split; [apply PUT_book_size|]. intros k r'. apply PUT_book_others.
Qed.

Lemma update_concerns_one_row_witness :
  size (PUT_books rewrite_all 1 two_books).2 = size two_books ∧
  (PUT_books rewrite_all 1 two_books).2 !! 2%Z = Some (mkrow (VStr "U") (VStr "B") VNone).
Proof.
  destruct (update_concerns_one_row two_books rewrite_all 1) as [Hsize Hothers].
  split; [exact Hsize|]. apply Hothers; [done|reflexivity].
Defined.

(** X7: sending the same update a second time leaves the table as the first
    one left it. *)
Theorem update_twice_is_update_once (t : table) (b : Body.t) (book_id : Z) :
  (PUT_books b book_id (PUT_books b book_id t).2).2 = (PUT_books b book_id t).2.
Proof.
  unfold PUT_books, with_body. destruct (validate b) as [book|]; [|done].
  destruct (t !! book_id) as [r|] eqn:Hr;
    [|by rewrite !PUT_book_no_row by (by rewrite ?PUT_book_no_row)].
  destruct (PUT_book_cases t book book_id r Hr)
    as (k' & Hid & [(-> & Hput)|[(_ & _ & Hput)|(Hne & _ & Hk & Hput)]]).
  - rewrite Hput. simpl.
    rewrite (PUT_book_found _ _ _ (columns (updated book (load book_id r))))
      by apply lookup_insert_eq.
    rewrite (load_columns _ _ Hid), updated_idemp, Hid.
    destruct (decide (book_id = book_id)); [|done]. simpl.
    by rewrite insert_insert_eq.
  - rewrite Hput. simpl. by rewrite Hput.
  - rewrite Hput. simpl. rewrite PUT_book_no_row; [done|].
    rewrite lookup_insert_ne by done. apply lookup_delete_eq.
Qed.

(** X8: an update that gives title, author and description, all non-empty,
    and no id, is answered 200 and rewrites the three columns of the row;
    reading the book afterwards returns exactly the values sent, under the
    same id. *)
Theorem update_then_get (t : table) (book_id : Z) (r : row) (ti au d : string) :
  t !! book_id = Some r →
  ti ≠ "" → au ≠ "" → d ≠ "" →
  PUT_books (Body.mk Absent (Given ti) (Given au) (Given d)) book_id t
    = (mkresp 200 JNull, <[book_id := mkrow (VStr ti) (VStr au) (VStr d)]> t) ∧
  GET_book book_id (PUT_books (Body.mk Absent (Given ti) (Given au) (Given d)) book_id t).2
    = (mkresp 200 (JBook (Book.mk (Some book_id) ti au (Some d) Book.all_fields)),
       <[book_id := mkrow (VStr ti) (VStr au) (VStr d)]> t).
Proof.
  intros Hr Hti Hau Hd.
  assert (Hput : PUT_books (Body.mk Absent (Given ti) (Given au) (Given d)) book_id t
    = (mkresp 200 JNull, <[book_id := mkrow (VStr ti) (VStr au) (VStr d)]> t)).
  { unfold PUT_books, with_body. simpl.
    rewrite (PUT_book_found _ _ _ r Hr), updated_eq. simpl.
    destruct (decide (book_id = book_id)); [|done].
    destruct (decide (d = "")); [done|]. unfold columns. simpl.
    repeat (destruct (decide _) as [_|Hn];
            [|exfalso; apply Hn; split; [rewrite !elem_of_cons; auto|done]]).
    done. }
  rewrite Hput. split; [done|]. simpl.
  by rewrite (GET_book_found _ _ (mkrow (VStr ti) (VStr au) (VStr d)))
    by apply lookup_insert_eq.
Qed.

Lemma update_then_get_witness :
  shelf !! 1%Z = Some shelf_row ∧
  GET_book 1 (PUT_books rewrite_all 1 shelf).2
    = (mkresp 200 (JBook (Book.mk (Some 1%Z) "T2" "A2" (Some "D2") Book.all_fields)),
       <[1%Z := mkrow (VStr "T2") (VStr "A2") (VStr "D2")]> shelf).
Proof.
  split; [reflexivity|].
  by apply (update_then_get shelf 1 shelf_row "T2" "A2" "D2").
Defined.

(** X9: an update whose body has empty title and author, no id (absent or
    null) and no description (absent, null or empty) passes validation, is
    answered 200 and changes nothing. *)
Theorem update_with_nothing_to_assign
    (t : table) (book_id : Z) (r : row) (i : supplied Z) (d : supplied string) :
  t !! book_id = Some r →
  to_option i = None →
  d = Given "" ∨ to_option d = None →
  PUT_books (Body.mk i (Given "") (Given "") d) book_id t = (mkresp 200 JNull, t).
Proof.
  intros Hr Hi Hd.
  assert (Hkept : <[book_id := r]> t = t) by (by apply insert_id).
  destruct i as [| |n]; [| |done];
    (destruct d as [| |s]; [| |assert (s = "") as -> by (by destruct Hd as [[= ->]|?])]);
    unfold PUT_books, with_body; simpl;
    rewrite (PUT_book_found _ _ _ r Hr), updated_eq; simpl;
    repeat (destruct (decide _) as [?|?]; simpl; try tauto);
    unfold columns; destruct r; simpl in *; by rewrite Hkept.
Qed.

Lemma update_with_nothing_to_assign_witness :
  shelf !! 1%Z = Some shelf_row ∧
  PUT_books null_description 1 shelf = (mkresp 200 JNull, shelf).
Proof.
  split; [reflexivity|].
  apply (update_with_nothing_to_assign shelf 1 shelf_row Absent Null);
    [reflexivity|reflexivity|by right].
Defined.

(** X10: an update of an existing book with a valid body is answered 200 or
    500, and 500 exactly when the body carries an id other than the one of
    the route that is beyond 64 bits or that another book already has. *)
Theorem update_fails_iff_id_taken
    (t : table) (b : Body.t) (book : Book.t) (book_id : Z) (r : row) :
  t !! book_id = Some r →
  validate b = Some book →
  (status_code (PUT_books b book_id t).1 = 200 ∨
   status_code (PUT_books b book_id t).1 = 500) ∧
  (status_code (PUT_books b book_id t).1 = 500 ↔
   ∃ k', Body.id b = Given k' ∧ k' ≠ book_id ∧
         (in_int64 k' = false ∨ is_Some (t !! k'))).
Proof.
  intros Hr Hv. unfold PUT_books, with_body. rewrite Hv.
  pose proof (updated_id_of_body b book book_id r Hv) as Hkey.
  destruct (PUT_book_cases t book book_id r Hr)
    as (k' & Hid & [(-> & ->)|[(Hne & Hk & ->)|(Hne & Hin & Hk & ->)]]); simpl;
    rewrite Hid in Hkey; injection Hkey as Hkey.
  - split; [by left|]. split; [done|].
    intros (k & Hb & Hne & _). rewrite Hb in Hkey. congruence.
  - split; [by right|]. split; [|done]. intros _. exists k'.
    destruct (Body.id b); try congruence. by subst.
  - split; [by left|]. split; [done|].
    intros (k & Hb & _ & [Hout|[r' Hr']]); rewrite Hb in Hkey; congruence.
Qed.

Lemma update_fails_iff_id_taken_witness :
  two_books !! 1%Z = Some shelf_row ∧
  validate renumber_to_2 = Some (Book.mk (Some 2%Z) "X" "" None ["id"; "title"; "author"]) ∧
  (status_code (PUT_books renumber_to_2 1 two_books).1 = 500 ↔
   ∃ k', Body.id renumber_to_2 = Given k' ∧ k' ≠ 1%Z ∧
         (in_int64 k' = false ∨ is_Some (two_books !! k'))).
Proof.
  split; [reflexivity|]. split; [reflexivity|].
  apply (update_fails_iff_id_taken two_books renumber_to_2
           (Book.mk (Some 2%Z) "X" "" None ["id"; "title"; "author"]) 1 shelf_row);
    reflexivity.
Defined.

(** A body [id] beyond 64 bits makes the commit fail; the table keeps the
    row where it was. *)
Example PUT_books_id_too_large :
  PUT_books renumber_too_large 1 shelf = (mkresp 500 InternalServerError, shelf).
Proof. by vm_compute. Qed.

(** ** Delete *)

(** X11: deleting an existing book is answered 200 with a null body and
    removes that row and no other: the id is gone, every other id holds
    what it held, and there is one book less. *)
Theorem delete_removes_exactly_that_row (t : table) (book_id : Z) (r : row) :
  t !! book_id = Some r →
  (DELETE_book book_id t).1 = mkresp 200 JNull ∧
  (DELETE_book book_id t).2 !! book_id = None ∧
  (∀ k, k ≠ book_id → (DELETE_book book_id t).2 !! k = t !! k) ∧
  S (size (DELETE_book book_id t).2) = size t.
Proof.
  intros Hr. rewrite (DELETE_book_found _ _ r Hr). simpl.
  split; [done|]. split; [apply lookup_delete_eq|]. split.
  - intros k Hk. by rewrite lookup_delete_ne.
  - rewrite map_size_delete, Hr. simpl.
    assert (size t ≠ 0) by (intros ->%map_size_empty_inv; by rewrite lookup_empty in Hr).
    lia.
Qed.

Lemma delete_removes_exactly_that_row_witness :
  two_books !! 1%Z = Some shelf_row ∧
  (DELETE_book 1 two_books).1 = mkresp 200 JNull ∧
  (DELETE_book 1 two_books).2 !! 1%Z = None ∧
  S (size (DELETE_book 1 two_books).2) = size two_books.
Proof.
  split; [reflexivity|].
  destruct (delete_removes_exactly_that_row two_books 1 shelf_row eq_refl)
    as (Hresp & Hgone & _ & Hsize).
  by repeat split.
Defined.

(** X12: deleting the book a create request has just returned restores the
    table the create request found. *)
Theorem create_then_delete_restores (t : table) (b : Body.t) (book : Book.t) :
  validate b = Some book →
  ∃ (k : Z) (created : Book.t),
    (POST_books b t).1 = mkresp 200 (JBook created) ∧
    Book.id created = Some k ∧
    DELETE_book k (POST_books b t).2 = (mkresp 200 JNull, t).
Proof.
  intros Hv. rewrite (POST_books_run t b book Hv). simpl.
  eexists _, _. split; [done|]. split; [done|].
  erewrite DELETE_book_found by apply lookup_insert_eq.
  f_equal. apply delete_insert_id, next_rowid_fresh.
Qed.

Lemma create_then_delete_restores_witness :
  validate A_by_B = Some (Book.mk None "A" "B" None ["title"; "author"]) ∧
  ∃ (k : Z) (created : Book.t),
    (POST_books A_by_B shelf).1 = mkresp 200 (JBook created) ∧
    Book.id created = Some k ∧
    DELETE_book k (POST_books A_by_B shelf).2 = (mkresp 200 JNull, shelf).
Proof.
  split; [reflexivity|].
  apply (create_then_delete_restores shelf A_by_B
           (Book.mk None "A" "B" None ["title"; "author"])).
  reflexivity.
Defined.

(** ** Create and delete, seen through the listing *)

Lemma POST_books_well_formed (t : table) (b : Body.t) :
  well_formed t → well_formed (POST_books b t).2.
Proof. apply (serve_well_formed (Post b)). Qed.

(** X13: a valid create adds exactly one book and leaves every existing
    book as it was; a rejected one (422) adds nothing. *)
Theorem create_adds_one_row (t : table) (b : Body.t) :
  (is_Some (validate b) →
   size (POST_books b t).2 = S (size t) ∧
   ∀ k r, t !! k = Some r → (POST_books b t).2 !! k = Some r) ∧
  (validate b = None → POST_books b t = (mkresp 422 JValidationError, t)).
Proof.
  split.
  - intros [book Hv]. rewrite (POST_books_run t b book Hv). simpl. split.
    + apply map_size_insert_None, next_rowid_fresh.
    + intros k r Hr. rewrite lookup_insert_ne; [done|].
      intros Heq. pose proof (next_rowid_fresh t) as Hfresh. congruence.
  - intros Hv. unfold POST_books, with_body. by rewrite Hv.
Qed.

Lemma create_adds_one_row_witness :
  is_Some (validate A_by_B) ∧
  size (POST_books A_by_B shelf).2 = S (size shelf) ∧
  (POST_books A_by_B shelf).2 !! 1%Z = Some shelf_row ∧
  validate only_description = None ∧
  POST_books only_description shelf = (mkresp 422 JValidationError, shelf).
Proof.
  destruct (create_adds_one_row shelf A_by_B) as [Hadd _].
  destruct (create_adds_one_row shelf only_description) as [_ Hrej].
  assert (Hv : is_Some (validate A_by_B)) by (by eexists).
  destruct (Hadd Hv) as [Hsize Hkept].
  split; [exact Hv|]. split; [exact Hsize|]. split; [by apply Hkept|].
  split; [reflexivity|]. by apply Hrej.
Defined.

(** X14: on a well-formed table, the book a valid create returns is in the
    listing that follows, which has one record more than the table had
    rows. *)
Theorem created_book_is_listed (t : table) (b : Body.t) (book : Book.t) :
  well_formed t →
  validate b = Some book →
  ∃ (created : Book.t) (bs : list Book.t),
    (POST_books b t).1 = mkresp 200 (JBook created) ∧
    (GET_books (POST_books b t).2).1 = mkresp 200 (JBooks bs) ∧
    created ∈ bs ∧
    length bs = S (size t).
Proof.
  intros Hwf Hv.
  destruct (GET_books_listing (POST_books b t).2 (POST_books_well_formed t b Hwf))
    as (bs & Hget & Hlen & _ & Hin).
  revert Hget Hlen Hin. rewrite (POST_books_run t b book Hv). cbn [fst snd].
  intros Hget Hlen Hin. eexists _, bs. split; [done|].
  split; [by rewrite Hget|]. split.
  - apply Hin. eexists _, _. split; [apply lookup_insert_eq|].
    by destruct (Book.description book).
  - rewrite Hlen. apply map_size_insert_None, next_rowid_fresh.
Qed.

Lemma created_book_is_listed_witness :
  validate A_by_B = Some (Book.mk None "A" "B" None ["title"; "author"]) ∧
  ∃ (created : Book.t) (bs : list Book.t),
    (POST_books A_by_B shelf).1 = mkresp 200 (JBook created) ∧
    (GET_books (POST_books A_by_B shelf).2).1 = mkresp 200 (JBooks bs) ∧
    created ∈ bs ∧
    length bs = S (size shelf).
Proof.
  split; [reflexivity|].
  apply (created_book_is_listed shelf A_by_B
           (Book.mk None "A" "B" None ["title"; "author"]));
    [apply well_formed_shelf|reflexivity].
Defined.

(** X15: on a well-formed table, after an existing book is deleted the
    listing has one record less and none with the deleted id. *)
Theorem deleted_book_is_not_listed (t : table) (book_id : Z) (r : row) :
  well_formed t →
  t !! book_id = Some r →
  ∃ bs : list Book.t,
    (GET_books (DELETE_book book_id t).2).1 = mkresp 200 (JBooks bs) ∧
    S (length bs) = size t ∧
    ∀ book, book ∈ bs → Book.id book ≠ Some book_id.
Proof.
  intros Hwf Hr.
  assert (Hwf' : well_formed (DELETE_book book_id t).2)
    by apply (serve_well_formed (Delete book_id) t Hwf).
  destruct (GET_books_listing _ Hwf') as (bs & Hget & Hlen & _ & Hin).
  revert Hget Hlen Hin. rewrite (DELETE_book_found _ _ r Hr). cbn [fst snd].
  intros Hget Hlen Hin. exists bs. split; [by rewrite Hget|]. split.
  - rewrite Hlen, map_size_delete, Hr. simpl.
    assert (size t ≠ 0) by (intros ->%map_size_empty_inv; by rewrite lookup_empty in Hr).
    lia.
  - intros book (k & r' & Hk & Hb)%Hin Hid.
    rewrite (from_attributes_id k r' book Hb) in Hid. injection Hid as ->.
    by rewrite lookup_delete_eq in Hk.
Qed.

Lemma deleted_book_is_not_listed_witness :
  two_books !! 1%Z = Some shelf_row ∧
  ∃ bs : list Book.t,
    (GET_books (DELETE_book 1 two_books).2).1 = mkresp 200 (JBooks bs) ∧
    S (length bs) = size two_books ∧
    ∀ book, book ∈ bs → Book.id book ≠ Some 1%Z.
Proof.
  split; [reflexivity|].
  apply (deleted_book_is_not_listed two_books 1 shelf_row); [|reflexivity].
  apply (serve_well_formed (Post (Body.mk Absent (Given "U") (Given "B") Absent)) shelf).
  apply well_formed_shelf.
Defined.

Lemma never_created_not_found_witness :
  GET_book 5 (serve_all [Post A_by_B; Put retitle 1; Delete 3] ∅).2
    = (mkresp 404 (JDetail "Book not found"),
       (serve_all [Post A_by_B; Put retitle 1; Delete 3] ∅).2).
Proof.
  apply (never_created_not_found [Post A_by_B; Put retitle 1; Delete 3] 5).
  - repeat constructor.
  - vm_compute. intros H. repeat (apply elem_of_cons in H as [H|H]; [done|]).
    by apply elem_of_nil in H.
  - reflexivity.
Defined.

(** ** The keys of the table stay within 64 bits *)

Lemma foldr_max_elem (k : Z) (ks : list Z) : foldr Z.max k ks ∈ k :: ks.
Proof.
  induction ks as [|y ks IH]; simpl; [by left|].
  destruct (Z.max_spec y (foldr Z.max k ks)) as [[_ ->]|[_ ->]].
  - apply elem_of_cons in IH as [->|IH]; [by left|]. right. by right.
  - right. by left.
Qed.

Lemma largest_rowid_in_use (t : table) (m : Z) :
  largest_rowid t = Some m → is_Some (t !! m).
Proof.
  unfold largest_rowid. destruct (map fst (map_to_list t)) as [|k ks] eqn:Hks; [done|].
  intros [= <-]. pose proof (foldr_max_elem k ks) as Hin. rewrite <- Hks in Hin.
  apply list_elem_of_fmap in Hin as ([k' r] & -> & Hin).
  apply elem_of_map_to_list in Hin. by eexists.
Qed.

Lemma random_rowid_bounds (t : table) :
  (1 ≤ random_rowid t ≤ Z.of_nat (S (size t)))%Z.
Proof.
  unfold random_rowid.
  destruct (filter (λ k, t !! k = None) (seqZ 1 (Z.of_nat (S (size t)))))
    as [|k ks] eqn:Hf; simpl; [lia|].
  assert (Hk : k ∈ filter (λ k, t !! k = None) (seqZ 1 (Z.of_nat (S (size t)))))
    by (rewrite Hf; left).
  apply list_elem_of_filter in Hk as [_ Hk]. apply elem_of_seqZ in Hk. lia.
Qed.

(** On a table of 64-bit keys that is not absurdly large the allocated key
    is of 64 bits. *)
Lemma next_rowid_in_int64 (t : table) :
  keys_in_int64 t →
  (Z.of_nat (size t) < MAX_ROWID)%Z →
  in_int64 (next_rowid t) = true.
Proof.
  intros Hkeys Hsize. unfold next_rowid.
  destruct (largest_rowid t) as [m|] eqn:Hm; [|done].
  destruct (decide (m < MAX_ROWID)%Z) as [Hlt|_].
  - destruct (largest_rowid_in_use t m Hm) as [r Hr].
    pose proof (Hkeys m r Hr) as Hin. simpl in Hin.
    unfold in_int64 in *. apply andb_prop in Hin as [Hlo _].
    apply andb_true_intro. split; [apply Z.leb_le in Hlo; apply Z.leb_le|apply Z.leb_le];
      unfold MIN_ROWID, MAX_ROWID in *; lia.
  - pose proof (random_rowid_bounds t) as Hb. unfold in_int64.
    apply andb_true_intro.
    split; apply Z.leb_le; unfold MIN_ROWID, MAX_ROWID in *; lia.
Qed.

(** Every request keeps the keys of the table within 64 bits: an update
    whose body carries a key beyond 64 bits fails, and the storage engine
    allocates keys of 64 bits.  This is why a route id beyond 64 bits finds
    no row. *)
Lemma serve_keys_in_int64 (q : request) (t : table) :
  keys_in_int64 t →
  (Z.of_nat (size t) < MAX_ROWID)%Z →
  keys_in_int64 (serve q t).2.
Proof.
  intros Hkeys Hsize. destruct q as [book_id| |b|book_id|b book_id]; unfold serve.
  - by rewrite GET_book_table.
  - by rewrite GET_books_table.
  - unfold POST_books, with_body. destruct (validate b) as [book|]; [|done].
    rewrite POST_book_run. simpl. apply map_Forall_insert_2; [|done].
    by apply next_rowid_in_int64.
  - destruct (t !! book_id) as [r|] eqn:Hr.
    + rewrite (DELETE_book_found _ _ r Hr). by apply map_Forall_delete.
    + by rewrite DELETE_book_no_row.
  - unfold PUT_books, with_body. destruct (validate b) as [book|]; [|done].
    destruct (t !! book_id) as [r|] eqn:Hr; [|by rewrite PUT_book_no_row].
    destruct (PUT_book_cases t book book_id r Hr)
      as (k' & _ & [(_ & ->)|[(_ & _ & ->)|(_ & Hin & _ & ->)]]); simpl.
    + apply map_Forall_insert_2; [|done]. by apply (Hkeys book_id r).
    + done.
    + apply map_Forall_insert_2; [done|]. by apply map_Forall_delete.
Qed.
